(** * xqemu-manager: the settings store, the process controller and the
      windows that drive them

    A shallow embedding of [main.py]: [SettingsManager] (reset / save /
    load of the settings dictionary), [Xqemu] (start / stop / isRunning of
    the emulator process), the bindings of [SettingsWindow] and the
    handlers of [MainWindow], over an explicit model of what they touch:
    Python strings and dictionaries, the [json] codec, the filesystem and
    the process table.

    Python exceptions do not roll anything back, so the methods live in a
    state-and-exception monad whose failures keep the state reached so far. *)

From Stdlib Require Import Ascii.
From stdpp Require Import gmap strings list fin_maps.

(** ** Python strings *)

(** A Python [str] is modelled as a [string] whose characters are the code
    points below 256. *)
Module Py.

(** [str.isspace] on one character, for the code points below 256:
    TAB, LF, VT, FF, CR, the separators FS GS RS US, SPACE, NEL and NBSP. *)
Definition isspace (c : ascii) : bool :=
  let n := nat_of_ascii c in
  (((9 <=? n) && (n <=? 13)) || ((28 <=? n) && (n <=? 32))
   || (n =? 133) || (n =? 160))%nat.

(** A finished word is kept only when it is not empty: runs of whitespace,
    and whitespace at either end, produce no empty words. *)
Definition push_word (w : string) (ws : list string) : list string :=
  match w with
  | EmptyString => ws
  | String _ _ => w :: ws
  end.

(** [scan s] is the word that starts [s] (empty when [s] starts with
    whitespace) and the words after the first whitespace of [s]. *)
Fixpoint scan (s : string) : string * list string :=
  match s with
  | EmptyString => (EmptyString, [])
  | String c s' =>
      let '(w, ws) := scan s' in
      if isspace c then (EmptyString, push_word w ws) else (String c w, ws)
  end.

(** [s.split()] with no separator. *)
Definition split (s : string) : list string :=
  let '(w, ws) := scan s in push_word w ws.

(** No character of [s] is whitespace. *)
Fixpoint nospace (s : string) : bool :=
  match s with
  | EmptyString => true
  | String c s' => negb (isspace c) && nospace s'
  end.

End Py.

(** ** Values of the settings dictionary *)

(** The settings hold text (the paths) and booleans (the flags); these are
    also the values [json.dumps] writes for them. *)
Inductive value : Type :=
  | VStr (s : string)
  | VBool (b : bool).

#[global] Instance value_eq_dec : EqDecision value.
Proof. solve_decision. Defined.

(** Truth value of an object in a condition: a string is true when it is
    not empty. *)
Definition truthy (v : value) : bool :=
  match v with
  | VBool b => b
  | VStr EmptyString => false
  | VStr (String _ _) => true
  end.

(** [str(v)], what ['%s'] inserts. *)
Definition str (v : value) : string :=
  match v with
  | VStr s => s
  | VBool true => "True"
  | VBool false => "False"
  end.

(** ** The world the program runs in *)

(** What a path names: a directory, or a file with its text.  A path that
    names nothing is absent from the map. *)
Inductive node : Type :=
  | Dir
  | File (content : string).

(** A child process: the argument vector it was started with, and whether
    [terminate] has been sent to it. *)
Record process : Type := Process {
  argv : list string;
  terminated : bool;
}.

(** The state the two objects of [MainWindow] and the operating system make
    up.  A [Popen] object is the index of its process in [procs]. *)
Record state : Type := State {
  settings : gmap string value;      (* SettingsManager.settings *)
  _p : option nat;                   (* Xqemu._p *)
  fs : gmap string node;             (* the filesystem, by path *)
  procs : list process;              (* every process spawned so far *)
  launchable : list string → bool;   (* whether the OS can run this argv *)
}.

Definition set_settings (d : gmap string value) (s : state) : state :=
  State d (_p s) (fs s) (procs s) (launchable s).
Definition set_p (p : option nat) (s : state) : state :=
  State (settings s) p (fs s) (procs s) (launchable s).
Definition set_fs (f : gmap string node) (s : state) : state :=
  State (settings s) (_p s) f (procs s) (launchable s).
Definition set_procs (l : list process) (s : state) : state :=
  State (settings s) (_p s) (fs s) l (launchable s).

(** ** Exceptions and the monad of methods *)

Inductive exn : Type :=
  | KeyError (key : string)       (* d[key] with key not in d *)
  | TypeError                     (* an operand of the wrong type *)
  | Exception (msg : string)      (* raise Exception(msg) *)
  | OSError (name : string)       (* open() or Popen() refused by the OS *)
  | ValueError.                   (* json.loads on a bad document *)

Inductive result (A : Type) : Type :=
  | Ok (a : A)
  | Raise (e : exn).
Arguments Ok {A} a.
Arguments Raise {A} e.

(** A method takes the state and returns normally or raises, and in both
    cases leaves the state it has reached. *)
Definition M (A : Type) : Type := state → result A * state.

#[global] Instance M_ret : MRet M := λ A a s, (Ok a, s).
#[global] Instance M_bind : MBind M := λ A B f m s,
  match m s with
  | (Ok a, s') => f a s'
  | (Raise e, s') => (Raise e, s')
  end.

Definition raise {A} (e : exn) : M A := λ s, (Raise e, s).
Definition gets {A} (f : state → A) : M A := λ s, (Ok (f s), s).
Definition modify (f : state → state) : M unit := λ s, (Ok (), f s).

(** [d[key]] *)
Definition getitem (d : gmap string value) (key : string) : M value :=
  match d !! key with
  | Some v => mret v
  | None => raise (KeyError key)
  end.

(** [left + right] with [left] a string: [right] must be one too. *)
Definition str_add (left : string) (right : value) : M string :=
  match right with
  | VStr s => mret (left +:+ s)
  | VBool _ => raise TypeError
  end.

(** ** The filesystem and the process table *)

(** What [os.path.exists] and [os.path.isdir] answer on a filesystem. *)
Definition exists_in (f : gmap string node) (p : string) : bool :=
  if f !! p is Some _ then true else false.

Definition isdir_in (f : gmap string node) (p : string) : bool :=
  if f !! p is Some Dir then true else false.

(** [os.path.exists(path)] and [os.path.isdir(path)].  A path is text; a
    boolean in its place is reported as [TypeError] (Python 3 would read
    it as a file descriptor number, and descriptors are not modelled). *)
Definition os_path_exists (path : value) : M bool :=
  match path with
  | VStr p => gets (λ s, exists_in (fs s) p)
  | VBool _ => raise TypeError
  end.

Definition os_path_isdir (path : value) : M bool :=
  match path with
  | VStr p => gets (λ s, isdir_in (fs s) p)
  | VBool _ => raise TypeError
  end.

(** [subprocess.Popen(args)]: the child is appended to the process table
    and its index is the handle, unless the OS cannot launch it. *)
Definition Popen (args : list string) : M nat := λ s,
  if launchable s args
  then (Ok (length (procs s)),
        set_procs (procs s ++ [Process args false]) s)
  else (Raise (OSError (default "" (head args))), s).

(** [p.terminate()]: the request is recorded on the process; nothing waits
    for the process to exit. *)
Definition terminate (p : nat) : M unit :=
  modify (λ s, set_procs (alter (λ c, Process (argv c) true) p (procs s)) s).

(** ** class Xqemu *)

Module Xqemu.

(** [__init__]: no process is retained. *)
Definition __init__ : M unit := modify (set_p None).

(** The nested helper of [start]. *)
Definition check_path (path : value) : M unit :=
  e ← os_path_exists path;
  d ← (if negb e then (mret true : M bool) else os_path_isdir path);
  if (d : bool)
  then raise (Exception ("File " +:+ str path +:+ " could not be found!"))
  else mret ().

(** The three tabs that open each continuation line of the command
    string: the backslash removes the line break, the indentation stays. *)
Definition tabs : string :=
  String "009"%char (String "009"%char (String "009"%char "")).

(** The command string, ['...' % locals()]. *)
Definition cmd (xqemu_path mcpx_path flash_path hdd_path : value)
    (short_anim_arg dvd_path_arg : string) : string :=
  str xqemu_path +:+ " " +:+
  tabs +:+ "-cpu pentium3 " +:+
  tabs +:+ "-machine xbox,bootrom=" +:+ str mcpx_path +:+ short_anim_arg
       +:+ " -m 64 " +:+
  tabs +:+ "-bios " +:+ str flash_path +:+ " " +:+
  tabs +:+ "-net nic,model=nvnet -net user " +:+
  tabs +:+ "-monitor stdio " +:+
  tabs +:+ "-drive file=" +:+ str hdd_path +:+ ",index=0,media=disk " +:+
  tabs +:+ "-drive index=1,media=cdrom" +:+ dvd_path_arg.

Definition start (settings : gmap string value) : M unit :=
  xqemu_path ← getitem settings "xqemu_path";
  check_path xqemu_path;;
  mcpx_path ← getitem settings "mcpx_path";
  check_path mcpx_path;;
  flash_path ← getitem settings "flash_path";
  check_path flash_path;;
  hdd_path ← getitem settings "hdd_path";
  check_path hdd_path;;
  short_anim ← getitem settings "short_anim";
  let short_anim_arg :=
    if truthy short_anim then ",short_animation" else "" in
  dvd_present ← getitem settings "dvd_present";
  dvd_path_arg ←
    (if truthy dvd_present
     then dvd_path ← getitem settings "dvd_path";
          check_path dvd_path;;
          dvd_path' ← getitem settings "dvd_path";
          str_add ",file=" dvd_path'
     else mret "");
  p ← Popen (Py.split (cmd xqemu_path mcpx_path flash_path hdd_path
                           short_anim_arg dvd_path_arg));
  modify (set_p (Some p)).

Definition stop : M unit :=
  p ← gets _p;
  match p with
  | Some h => terminate h;; modify (set_p None)
  | None => mret ()
  end.

Definition isRunning (s : state) : bool :=
  bool_decide (_p s ≠ None).

End Xqemu.

(** ** The json codec *)

(** [json.dumps(d, indent=2)] and [json.loads] for the documents the
    program writes: one object whose members are strings and booleans. *)
Module Json.

Definition quote : ascii := "034"%char.
Definition backslash : ascii := "092"%char.
Definition newline : string := String "010"%char "".

Definition hex_digit (n : nat) : ascii :=
  default "0"%char (String.get n "0123456789abcdef").

(** One character inside a string literal, with [ensure_ascii]: the
    quote, the backslash and everything outside SPACE..TILDE is escaped. *)
Definition escape (c : ascii) : string :=
  let n := nat_of_ascii c in
  if (n =? 34)%nat then String backslash (String quote "")
  else if (n =? 92)%nat then String backslash (String backslash "")
  else if (n =? 8)%nat then String backslash "b"
  else if (n =? 12)%nat then String backslash "f"
  else if (n =? 10)%nat then String backslash "n"
  else if (n =? 13)%nat then String backslash "r"
  else if (n =? 9)%nat then String backslash "t"
  else if ((32 <=? n) && (n <=? 126))%nat then String c ""
  else String backslash
         ("u00" +:+ String (hex_digit (n / 16))
                      (String (hex_digit (n mod 16)) "")).

Fixpoint escape_all (s : string) : string :=
  match s with
  | EmptyString => ""
  | String c s' => escape c +:+ escape_all s'
  end.

Definition encode_string (s : string) : string :=
  String quote (escape_all s +:+ String quote "").

Definition encode_value (v : value) : string :=
  match v with
  | VStr s => encode_string s
  | VBool true => "true"
  | VBool false => "false"
  end.

Definition encode_item (kv : string * value) : string :=
  encode_string kv.1 +:+ ": " +:+ encode_value kv.2.

(** [json.dumps(d, indent=2)].  The members come in the order of
    [map_to_list]; no reader of the document depends on their order. *)
Definition dumps (d : gmap string value) : string :=
  match map_to_list d with
  | [] => "{}"
  | items =>
      "{" +:+ newline +:+ "  " +:+
      String.concat ("," +:+ newline +:+ "  ") (encode_item <$> items) +:+
      newline +:+ "}"
  end.

(** The whitespace of a JSON document: space, TAB, LF and CR. *)
Definition is_ws (c : ascii) : bool :=
  let n := nat_of_ascii c in
  ((n =? 32) || (n =? 9) || (n =? 10) || (n =? 13))%nat.

Fixpoint skip_ws (s : string) : string :=
  match s with
  | String c s' => if is_ws c then skip_ws s' else s
  | EmptyString => ""
  end.

Definition hex_value (c : ascii) : option nat :=
  let n := nat_of_ascii c in
  if ((48 <=? n) && (n <=? 57))%nat then Some (n - 48)
  else if ((97 <=? n) && (n <=? 102))%nat then Some (n - 87)
  else if ((65 <=? n) && (n <=? 70))%nat then Some (n - 55)
  else None.

(** The character a one-letter escape stands for. *)
Definition unescape (e : ascii) : option ascii :=
  let n := nat_of_ascii e in
  if (n =? 34)%nat then Some quote
  else if (n =? 92)%nat then Some backslash
  else if (n =? 47)%nat then Some "/"%char
  else if (n =? 98)%nat then Some "008"%char
  else if (n =? 102)%nat then Some "012"%char
  else if (n =? 110)%nat then Some "010"%char
  else if (n =? 114)%nat then Some "013"%char
  else if (n =? 116)%nat then Some "009"%char
  else None.

(** The rest of a string literal after its opening quote: the text and
    what follows the closing quote.  Control characters must be escaped;
    an escape for a code point of 256 or more has no character here. *)
Fixpoint scanstring (s : string) : option (string * string) :=
  match s with
  | EmptyString => None
  | String c s1 =>
      if (c =? quote)%char then Some ("", s1)
      else if (c =? backslash)%char then
        match s1 with
        | EmptyString => None
        | String e s2 =>
            if (e =? "u")%char then
              match s2 with
              | String h1 (String h2 (String h3 (String h4 s3))) =>
                  d1 ← hex_value h1; d2 ← hex_value h2;
                  d3 ← hex_value h3; d4 ← hex_value h4;
                  if ((d1 =? 0) && (d2 =? 0))%nat
                  then '(t, rest) ← scanstring s3;
                       Some (String (ascii_of_nat (16 * d3 + d4)) t, rest)
                  else None
              | _ => None
              end
            else
              ch ← unescape e;
              '(t, rest) ← scanstring s2;
              Some (String ch t, rest)
        end
      else if (nat_of_ascii c <? 32)%nat then None
      else '(t, rest) ← scanstring s1; Some (String c t, rest)
  end.

Fixpoint drop_chars (n : nat) (s : string) : string :=
  match n, s with
  | S n', String _ s' => drop_chars n' s'
  | _, _ => s
  end.

(** A member's value: a string literal, [true] or [false]. *)
Definition scan_value (s : string) : option (value * string) :=
  match s with
  | EmptyString => None
  | String c s1 =>
      if (c =? quote)%char
      then '(t, rest) ← scanstring s1; Some (VStr t, rest)
      else if String.prefix "true" s then Some (VBool true, drop_chars 4 s)
      else if String.prefix "false" s then Some (VBool false, drop_chars 5 s)
      else None
  end.

(** The members of an object, from the quote that opens a name to the
    closing brace; a name given twice keeps its last value.  Each member
    uses one unit of [fuel]. *)
Fixpoint members (fuel : nat) (acc : gmap string value) (s : string)
    : option (gmap string value * string) :=
  match fuel with
  | O => None
  | S fuel' =>
      match s with
      | EmptyString => None
      | String c s1 =>
          if (c =? quote)%char then
            '(k, s2) ← scanstring s1;
            match skip_ws s2 with
            | String ":" s3 =>
                '(v, s4) ← scan_value (skip_ws s3);
                match skip_ws s4 with
                | String "}" s5 => Some (<[k:=v]> acc, s5)
                | String "," s5 => members fuel' (<[k:=v]> acc) (skip_ws s5)
                | _ => None
                end
            | _ => None
            end
          else None
      end
  end.

(** [json.loads(text)]: [Some d] for a document that is one object of
    string and boolean members, [None] for any other text. *)
Definition loads (text : string) : option (gmap string value) :=
  match skip_ws text with
  | String "{" s1 =>
      '(d, rest) ←
        match skip_ws s1 with
        | String "}" s2 => Some (∅, s2)
        | s2 => members (String.length s2) ∅ s2
        end;
      match skip_ws rest with
      | EmptyString => Some d
      | String _ _ => None
      end
  | _ => None
  end.

End Json.

(** ** Files *)

(** [open(path, 'w')]: the file is created or emptied.  A directory in its
    place is the refusal the model has; permissions are not modelled. *)
Definition open_w (path : string) : M unit := λ s,
  match fs s !! path with
  | Some Dir => (Raise (OSError path), s)
  | _ => (Ok (), set_fs (<[path := File ""]> (fs s)) s)
  end.

(** [f.write(text)] on the file just opened for writing. *)
Definition write (path text : string) : M unit := λ s,
  match fs s !! path with
  | Some (File old) => (Ok (), set_fs (<[path := File (old +:+ text)]> (fs s)) s)
  | _ => (Raise (OSError path), s)
  end.

(** [open(path, 'r')] followed by [f.read()]. *)
Definition read (path : string) : M string := λ s,
  match fs s !! path with
  | Some (File text) => (Ok text, s)
  | _ => (Raise (OSError path), s)
  end.

(** ** class SettingsManager *)

Definition SETTINGS_FILE : string := "./settings.json".

Module SettingsManager.

(** The dictionary literal of [reset]. *)
Definition defaults : gmap string value :=
  <["xqemu_path" := VStr "/path/to/xqemu"]>
  (<["mcpx_path" := VStr "/path/to/mcpx.bin"]>
  (<["flash_path" := VStr "/path/to/flash.bin"]>
  (<["hdd_path" := VStr "/path/to/hdd.img"]>
  (<["hdd_locked" := VBool true]>
  (<["dvd_present" := VBool true]>
  (<["dvd_path" := VStr "/path/to/disc.iso"]>
  (<["short_anim" := VBool false]> ∅))))))).

Definition reset : M unit := modify (set_settings defaults).

Definition __init__ : M unit := reset.

Definition save : M unit :=
  open_w SETTINGS_FILE;;
  d ← gets settings;
  write SETTINGS_FILE (Json.dumps d).

(** [json.loads] raises [ValueError] on a text that is not JSON; the model
    also ends there for a document outside the fragment of [Json.loads]. *)
Definition load : M unit :=
  e ← os_path_exists (VStr SETTINGS_FILE);
  if (e : bool)
  then d ← read SETTINGS_FILE;
       match Json.loads d with
       | Some v => modify (set_settings v)
       | None => raise ValueError
       end
  else reset.

End SettingsManager.

(** ** class SettingsWindow *)

Module SettingsWindow.

(** The line edits and the check boxes of the form. *)
Inductive text_widget : Type :=
  xqemuPath | dvdPath | mcpxPath | flashPath | hddPath.

Inductive check_widget : Type :=
  useShortBootAnim | dvdPresent | hddLocked.

#[global] Instance text_widget_eq_dec : EqDecision text_widget.
Proof. solve_decision. Defined.
#[global] Instance check_widget_eq_dec : EqDecision check_widget.
Proof. solve_decision. Defined.

(** The key each widget is bound to in [__init__]. *)
Definition text_var (w : text_widget) : string :=
  match w with
  | xqemuPath => "xqemu_path"
  | dvdPath => "dvd_path"
  | mcpxPath => "mcpx_path"
  | flashPath => "flash_path"
  | hddPath => "hdd_path"
  end.

Definition check_var (w : check_widget) : string :=
  match w with
  | useShortBootAnim => "short_anim"
  | dvdPresent => "dvd_present"
  | hddLocked => "hdd_locked"
  end.

(** What the widgets show. *)
Record form : Type := Form {
  text : text_widget → string;
  isChecked : check_widget → bool;
}.

Definition setText (w : text_widget) (t : string) (f : form) : form :=
  Form (λ w', if decide (w' = w) then t else text f w') (isChecked f).

Definition setChecked (w : check_widget) (b : bool) (f : form) : form :=
  Form (text f) (λ w', if decide (w' = w) then b else isChecked f w').

(** The helpers that hook the widgets to the settings.  The setters
    write what the widget shows; the getters show what the settings
    hold, and Qt refuses a value of the wrong type with [TypeError]. *)
Definition setTextAttr (w : text_widget) (f : form) : M unit :=
  modify (λ s, set_settings (<[text_var w := VStr (text f w)]> (settings s)) s).

Definition getTextAttr (w : text_widget) (f : form) : M form :=
  d ← gets settings;
  v ← getitem d (text_var w);
  match v with
  | VStr t => mret (setText w t f)
  | VBool _ => raise TypeError
  end.

Definition setCheckAttr (w : check_widget) (f : form) : M unit :=
  modify (λ s,
    set_settings (<[check_var w := VBool (isChecked f w)]> (settings s)) s).

Definition getCheckAttr (w : check_widget) (f : form) : M form :=
  d ← gets settings;
  v ← getitem d (check_var w);
  match v with
  | VBool b => mret (setChecked w b f)
  | VStr _ => raise TypeError
  end.

(** [__init__] on the form as the UI file gives it: each widget is made
    to show its setting, in the order of the bindings, and only then
    connected, so that showing writes nothing back. *)
Definition __init__ (ui : form) : M form :=
  f ← getTextAttr xqemuPath ui;
  f ← getCheckAttr useShortBootAnim f;
  f ← getCheckAttr dvdPresent f;
  f ← getTextAttr dvdPath f;
  f ← getTextAttr mcpxPath f;
  f ← getTextAttr flashPath f;
  f ← getTextAttr hddPath f;
  getCheckAttr hddLocked f.

(** What the user does while the dialog is open: gives a line edit a new
    text, clicks a check box, or picks a file with the button beside a
    line edit ([fileName] is empty when the picker is cancelled). *)
Inductive event : Type :=
  | Typed (w : text_widget) (t : string)
  | Clicked (w : check_widget)
  | Picked (w : text_widget) (fileName : string).

(** A line edit whose text changes emits [textChanged], which runs
    [setTextAttr]; a text equal to the one shown changes nothing. *)
Definition textChanged (w : text_widget) (t : string) (f : form) : M form :=
  if decide (t = text f w) then mret f
  else setTextAttr w (setText w t f);; mret (setText w t f).

Definition stateChanged (w : check_widget) (f : form) : M form :=
  setCheckAttr w (setChecked w (negb (isChecked f w)) f);;
  mret (setChecked w (negb (isChecked f w)) f).

(** [setSaveFileName]: the text is set only when a file name came back. *)
Definition setSaveFileName (w : text_widget) (fileName : string) (f : form)
    : M form :=
  match fileName with
  | EmptyString => mret f
  | String _ _ => textChanged w fileName f
  end.

Definition handle (e : event) (f : form) : M form :=
  match e with
  | Typed w t => textChanged w t f
  | Clicked w => stateChanged w f
  | Picked w fileName => setSaveFileName w fileName f
  end.

(** [exec_]: the events of the dialog, in order, until it is closed. *)
Fixpoint exec_ (events : list event) (f : form) : M form :=
  match events with
  | [] => mret f
  | e :: events' => f' ← handle e f; exec_ events' f'
  end.

End SettingsWindow.

(** ** class MainWindow *)

Module MainWindow.

(** The main window: the application state, the label of the run button
    and the error boxes shown so far, each by the exception whose text
    it shows. *)
Record window : Type := Window {
  app : state;
  runButton : string;
  critical : list exn;
}.

(** How a handler ends: it returns, an exception leaves it, or the
    program exits with a code. *)
Inductive outcome : Type :=
  | Returned
  | Raised (e : exn)
  | Exited (code : Z).

(** [__init__]: the controller and the settings manager are created, the
    settings are loaded and the button is labelled; a [load] that raises
    leaves the constructor. *)
Definition __init__ (w : window) : outcome * window :=
  match (Xqemu.__init__;; SettingsManager.__init__;; SettingsManager.load)
          (app w) with
  | (Ok _, s) => (Returned, Window s "Start" (critical w))
  | (Raise e, s) => (Raised e, Window s (runButton w) (critical w))
  end.

Definition onRunButtonClicked (w : window) : outcome * window :=
  if negb (Xqemu.isRunning (app w))
  then
    match Xqemu.start (settings (app w)) (app w) with
    | (Ok _, s) => (Returned, Window s "Stop" (critical w))
    | (Raise e, s) => (Returned, Window s (runButton w) (critical w ++ [e]))
    end
  else
    match Xqemu.stop (app w) with
    | (Ok _, s) => (Returned, Window s "Start" (critical w))
    | (Raise e, s) => (Raised e, Window s (runButton w) (critical w))
    end.

(** [onSettingsClicked], for the form of the UI file and the events of
    the dialog. *)
Definition onSettingsClicked (ui : SettingsWindow.form)
    (events : list SettingsWindow.event) (w : window) : outcome * window :=
  match (f ← SettingsWindow.__init__ ui;
         SettingsWindow.exec_ events f;;
         SettingsManager.save) (app w) with
  | (Ok _, s) => (Returned, Window s (runButton w) (critical w))
  | (Raise e, s) => (Raised e, Window s (runButton w) (critical w))
  end.

(** [onExitClicked]: [sys.exit(0)] after the [stop]. *)
Definition onExitClicked (w : window) : outcome * window :=
  match Xqemu.stop (app w) with
  | (Ok _, s) => (Exited 0, Window s (runButton w) (critical w))
  | (Raise e, s) => (Raised e, Window s (runButton w) (critical w))
  end.

(** What the user does in the main window between its opening and the
    exit: a click on the run button, or a visit to the settings dialog. *)
Inductive action : Type :=
  | Run
  | Settings (ui : SettingsWindow.form) (events : list SettingsWindow.event).

Definition perform (a : action) (w : window) : outcome * window :=
  match a with
  | Run => onRunButtonClicked w
  | Settings ui events => onSettingsClicked ui events w
  end.

End MainWindow.

(** ** Vocabulary of the statements *)

(** A path the launch accepts: it exists and is not a directory. *)
Definition is_file (f : gmap string node) (p : string) : bool :=
  exists_in f p && negb (isdir_in f p).

(** The error [check_path] raises for [p]. *)
Definition missing_path (p : string) : exn :=
  Exception ("File " +:+ p +:+ " could not be found!").

(** The keys whose paths every launch checks. *)
Definition required : list string :=
  ["xqemu_path"; "mcpx_path"; "flash_path"; "hdd_path"].

(** The state after [args] has been spawned from [s] and its handle
    retained. *)
Definition spawned (args : list string) (s : state) : state :=
  set_p (Some (length (procs s)))
        (set_procs (procs s ++ [Process args false]) s).

(** The process behind handle [h] has not been asked to terminate. *)
Definition running (h : nat) (s : state) : Prop :=
  ∃ c, procs s !! h = Some c ∧ terminated c = false.

(** [s.endswith(suffix)] *)
Fixpoint endswith (suffix s : string) : bool :=
  bool_decide (s = suffix) ||
  match s with
  | EmptyString => false
  | String _ s' => endswith suffix s'
  end.

(** Validation and command construction as a function of the settings
    and the filesystem alone: the error of the first failing step, or the
    argument vector to spawn. *)
Definition checked (f : gmap string node) (path : value) : result unit :=
  match path with
  | VStr p => if is_file f p then Ok () else Raise (missing_path p)
  | VBool _ => Raise TypeError
  end.

Definition item (d : gmap string value) (key : string) : result value :=
  match d !! key with
  | Some v => Ok v
  | None => Raise (KeyError key)
  end.

#[global] Instance result_ret : MRet result := λ A a, Ok a.
#[global] Instance result_bind : MBind result := λ A B f r,
  match r with
  | Ok a => f a
  | Raise e => Raise e
  end.

Definition plan (d : gmap string value) (f : gmap string node)
    : result (list string) :=
  xqemu_path ← item d "xqemu_path";
  checked f xqemu_path;;
  mcpx_path ← item d "mcpx_path";
  checked f mcpx_path;;
  flash_path ← item d "flash_path";
  checked f flash_path;;
  hdd_path ← item d "hdd_path";
  checked f hdd_path;;
  short_anim ← item d "short_anim";
  dvd_present ← item d "dvd_present";
  dvd_path_arg ←
    (if truthy dvd_present
     then dvd_path ← item d "dvd_path";
          checked f dvd_path;;
          match dvd_path with
          | VStr p => Ok (",file=" +:+ p)
          | VBool _ => Raise TypeError
          end
     else Ok "");
  Ok (Py.split (Xqemu.cmd xqemu_path mcpx_path flash_path hdd_path
                  (if truthy short_anim then ",short_animation" else "")
                  dvd_path_arg)).

(** The four required paths of [d] are the texts [x], [m], [fl] and [h],
    and each passes the check on [f]. *)
Definition validated (d : gmap string value) (f : gmap string node)
    (x m fl h : string) : Prop :=
  d !! "xqemu_path" = Some (VStr x) ∧ is_file f x = true ∧
  d !! "mcpx_path" = Some (VStr m) ∧ is_file f m = true ∧
  d !! "flash_path" = Some (VStr fl) ∧ is_file f fl = true ∧
  d !! "hdd_path" = Some (VStr h) ∧ is_file f h = true.

(** The argument vector the command string is written to denote: one
    argument for each option and each inserted text. *)
Definition intended_argv (x m fl h short_anim_arg dvd_path_arg : string)
    : list string :=
  [x; "-cpu"; "pentium3";
   "-machine"; "xbox,bootrom=" +:+ m +:+ short_anim_arg; "-m"; "64";
   "-bios"; fl;
   "-net"; "nic,model=nvnet"; "-net"; "user";
   "-monitor"; "stdio";
   "-drive"; "file=" +:+ h +:+ ",index=0,media=disk";
   "-drive"; "index=1,media=cdrom" +:+ dvd_path_arg].

(** The spawn and the assignment that end [start]. *)
Definition launch (args : list string) : M unit :=
  p ← Popen args; modify (set_p (Some p)).

(** ** Concrete states the statements are tried on *)

(** A filesystem with the four required files and a directory. *)
Definition demo_fs : gmap string node :=
  <["/opt/xqemu" := File ""]> (<["/rom/mcpx.bin" := File ""]>
  (<["/rom/flash.bin" := File ""]> (<["/img/hdd.img" := File ""]>
  (<["/img" := Dir]> ∅)))).

(** Settings that name those files, with no optical disc and the short
    animation. *)
Definition demo_settings : gmap string value :=
  <["xqemu_path" := VStr "/opt/xqemu"]>
  (<["mcpx_path" := VStr "/rom/mcpx.bin"]>
  (<["flash_path" := VStr "/rom/flash.bin"]>
  (<["hdd_path" := VStr "/img/hdd.img"]>
  (<["dvd_present" := VBool false]>
  (<["short_anim" := VBool true]> SettingsManager.defaults))))).

(** An idle controller on that filesystem, with an OS that launches
    anything. *)
Definition demo_state : state :=
  State SettingsManager.defaults None demo_fs [] (λ _, true).

(** A controller that retains the handle of a process spawned earlier. *)
Definition demo_active : state :=
  State SettingsManager.defaults (Some 0) demo_fs
        [Process ["/opt/xqemu"; "-cpu"; "pentium3"] false] (λ _, true).

(** Settings whose hard disk image has a space in its name, and a
    filesystem that has that file. *)
Definition spaced_settings : gmap string value :=
  <["hdd_path" := VStr "/img/my disk.img"]> demo_settings.

Definition spaced_state : state :=
  set_fs (<["/img/my disk.img" := File ""]> demo_fs) demo_state.

(** The keys that hold text and the keys that hold a flag, as [reset]
    fills them and the settings form binds them. *)
Definition text_keys : list string :=
  ["xqemu_path"; "mcpx_path"; "flash_path"; "hdd_path"; "dvd_path"].

Definition flag_keys : list string :=
  ["hdd_locked"; "dvd_present"; "short_anim"].

(** Every text key holds a string and every flag key a boolean. *)
Definition well_typed (d : gmap string value) : Prop :=
  (∀ k, k ∈ text_keys → ∃ t, d !! k = Some (VStr t)) ∧
  (∀ k, k ∈ flag_keys → ∃ b, d !! k = Some (VBool b)).

(** The form shows the settings: every line edit its text key, every
    check box its flag key. *)
Definition mirrors (f : SettingsWindow.form) (d : gmap string value) : Prop :=
  (∀ w, d !! SettingsWindow.text_var w = Some (VStr (SettingsWindow.text f w))) ∧
  (∀ w, d !! SettingsWindow.check_var w
        = Some (VBool (SettingsWindow.isChecked f w))).

(** The main window is tidy: the button reads [Stop] while a handle is
    retained and [Start] otherwise, the retained handle is that of a
    process that has not been asked to terminate, and every other
    process has been. *)
Definition tidy (w : MainWindow.window) : Prop :=
  MainWindow.runButton w
    = (if Xqemu.isRunning (MainWindow.app w) then "Stop" else "Start") ∧
  (∀ h, _p (MainWindow.app w) = Some h → running h (MainWindow.app w)) ∧
  (∀ i c, procs (MainWindow.app w) !! i = Some c →
          _p (MainWindow.app w) ≠ Some i → terminated c = true).

(** A main window on the idle demo state. *)
Definition demo_window : MainWindow.window :=
  MainWindow.Window demo_state "Start" [].

(** A form with every line edit empty and every box unchecked. *)
Definition blank_form : SettingsWindow.form :=
  SettingsWindow.Form (λ _, "") (λ _, false).

(** The form that shows the default settings. *)
Definition default_form : SettingsWindow.form :=
  SettingsWindow.Form
    (λ w, match w with
          | SettingsWindow.xqemuPath => "/path/to/xqemu"
          | SettingsWindow.dvdPath => "/path/to/disc.iso"
          | SettingsWindow.mcpxPath => "/path/to/mcpx.bin"
          | SettingsWindow.flashPath => "/path/to/flash.bin"
          | SettingsWindow.hddPath => "/path/to/hdd.img"
          end)
    (λ w, match w with
          | SettingsWindow.useShortBootAnim => false
          | _ => true
          end).

(** One member read into the dictionary under construction. *)
Definition put (m : gmap string value) (kv : string * value)
    : gmap string value := <[kv.1 := kv.2]> m.

(** Settings that pass every check although two of their paths have
    whitespace in them: the boot ROM path ends in a space, and the hard
    disk path goes on with the text of a drive option. *)
Definition odd_settings : gmap string value :=
  <["mcpx_path" := VStr "/rom/mcpx.bin "]>
  (<["hdd_path" :=
       VStr "/img/hdd.img -drive index=1,media=cdrom,file=/x.iso"]>
     demo_settings).

Definition odd_state : state :=
  set_fs (<["/rom/mcpx.bin " := File ""]>
          (<["/img/hdd.img -drive index=1,media=cdrom,file=/x.iso"
               := File ""]> demo_fs))
         demo_state.

(** A main window whose settings name the files of the demo filesystem,
    so that the run button launches. *)
Definition launch_window : MainWindow.window :=
  MainWindow.Window (set_settings demo_settings demo_state) "Start" [].

(** A main window about to open on a filesystem where [save] has written
    the demo settings. *)
Definition saved_window : MainWindow.window :=
  MainWindow.Window
    (SettingsManager.save (set_settings demo_settings demo_state)).2 "" [].

(** The arguments of the process spawned last. *)
Definition argv_of_last (s : state) : list string :=
  default [] (argv <$> last (procs s)).

(** The boot ROM option of [args] carries the short-animation suffix:
    some argument starts with [xbox,bootrom=] and ends in
    [,short_animation]. *)
Definition bootrom_suffixed (args : list string) : Prop :=
  ∃ w, w ∈ args ∧ String.prefix "xbox,bootrom=" w = true ∧
       endswith ",short_animation" w = true.

(** An argument that declares the second drive with a file attached. *)
Definition disc_file_argument (w : string) : bool :=
  String.prefix "index=1,media=cdrom,file=" w.

(** No path key holds a boolean: the paths that are there are text. *)
Definition paths_are_text (d : gmap string value) : Prop :=
  ∀ k b, k ∈ required ++ ["dvd_path"] → d !! k ≠ Some (VBool b).

(** * Properties *)

(** ** Lemmas on [split] *)

Section split_lemmas.
Import Py.

Lemma push_word_app w l m : push_word w (l ++ m) = push_word w l ++ m.
Proof. by destruct w. Qed.

Lemma scan_app_space a c b :
  isspace c = true →
  scan (a +:+ String c b) = ((scan a).1, (scan a).2 ++ split b).
Proof.
  intros Hc. induction a as [|x a IH]; simpl.
  - unfold split. destruct (scan b) as [w ws]. by rewrite Hc.
  - rewrite IH. destruct (scan a) as [w ws]; simpl.
    destruct (isspace x); [|done].
    by rewrite push_word_app.
Qed.

(** A whitespace character cuts the string: the words are those before
    it followed by those after it. *)
Lemma split_app_space a c b :
  isspace c = true → split (a +:+ String c b) = split a ++ split b.
Proof.
  intros Hc. unfold split at 1 2. rewrite scan_app_space by done.
  destruct (scan a) as [w ws]; simpl. apply push_word_app.
Qed.

Lemma split_space_cons c s : isspace c = true → split (String c s) = split s.
Proof. intros Hc. apply (split_app_space "" c s Hc). Qed.

Lemma scan_nospace w : nospace w = true → scan w = (w, []).
Proof.
  induction w as [|c w IH]; simpl; [done|].
  intros [Hc Hw]%andb_prop. rewrite (IH Hw).
  by destruct (isspace c).
Qed.

(** A non-empty string without whitespace is one word. *)
Lemma split_word w : w ≠ "" → nospace w = true → split w = [w].
Proof.
  intros Hne Hw. unfold split. rewrite scan_nospace by done.
  by destruct w.
Qed.

Lemma split_empty : split "" = [].
Proof. done. Qed.

Lemma nospace_app a b : nospace (a +:+ b) = nospace a && nospace b.
Proof.
  induction a as [|c a IH]; simpl; [done|].
  by rewrite IH, andb_assoc.
Qed.

(** Every word of a split is non-empty and free of whitespace. *)
Lemma scan_words s :
  nospace (scan s).1 = true ∧
  Forall (λ w, w ≠ "" ∧ nospace w = true) (scan s).2.
Proof.
  induction s as [|c s [IH1 IH2]]; simpl; [by split|].
  destruct (scan s) as [w ws]; simpl in *.
  destruct (isspace c) eqn:Hc; simpl.
  - split; [done|]. destruct w; [done|].
    constructor; [|done]. by split.
  - rewrite Hc, IH1. by split.
Qed.

Lemma split_words s : Forall (λ w, w ≠ "" ∧ nospace w = true) (split s).
Proof.
  unfold split. pose proof (scan_words s) as [H1 H2].
  destruct (scan s) as [w ws]; simpl in *.
  destruct w; [done|]. constructor; [|done]. by split.
Qed.

(** A string with a whitespace character in it never comes out of a
    split as one word. *)
Lemma split_not_word s : nospace s = false → s ∉ split s.
Proof.
  intros Hs Hin. pose proof (split_words s) as Hall.
  rewrite Forall_forall in Hall. destruct (Hall s Hin) as [_ Hn].
  congruence.
Qed.

End split_lemmas.


(** ** Running a method *)

Section monad_lemmas.
Context {A B : Type}.

Lemma bind_ok (m : M A) (f : A → M B) s a s' :
  m s = (Ok a, s') → (m ≫= f) s = f a s'.
Proof. intros H. unfold mbind, M_bind. by rewrite H. Qed.

Lemma bind_raise (m : M A) (f : A → M B) s e s' :
  m s = (Raise e, s') → (m ≫= f) s = (Raise e, s').
Proof. intros H. unfold mbind, M_bind. by rewrite H. Qed.

End monad_lemmas.

(** ** Validation *)

Section validation.
Import Xqemu.

Lemma check_path_checked path s :
  check_path path s =
  match checked (fs s) path with
  | Ok _ => (Ok (), s)
  | Raise e => (Raise e, s)
  end.
Proof.
  destruct path as [p|b]; [|done].
  unfold check_path, checked, is_file, missing_path; simpl.
  unfold mbind, M_bind, gets; simpl.
  destruct (exists_in (fs s) p); simpl; [|done].
  by destruct (isdir_in (fs s) p).
Qed.

Lemma check_path_ok p s :
  is_file (fs s) p = true → check_path (VStr p) s = (Ok (), s).
Proof. intros H. rewrite check_path_checked. simpl. by rewrite H. Qed.

Lemma check_path_fail p s :
  is_file (fs s) p = false →
  check_path (VStr p) s = (Raise (missing_path p), s).
Proof. intros H. rewrite check_path_checked. simpl. by rewrite H. Qed.

Lemma getitem_item d key s :
  getitem d key s =
  match item d key with
  | Ok v => (Ok v, s)
  | Raise e => (Raise e, s)
  end.
Proof. unfold getitem, item. by destruct (d !! key). Qed.

(** [start] is validation on the settings and the filesystem, which
    changes nothing, followed by the spawn and the assignment of the
    handle. *)
Lemma start_plan d s :
  start d s =
  match plan d (fs s) with
  | Ok args => launch args s
  | Raise e => (Raise e, s)
  end.
Proof.
  unfold start, plan, mbind, M_bind, result_bind.
  repeat (first [rewrite getitem_item | rewrite check_path_checked];
    match goal with
    | |- context [item ?d ?k] =>
        destruct (item d k) as [?|?]; simpl; [|done]
    | |- context [checked ?f ?v] =>
        destruct (checked f v) as [?|?]; simpl; [|done]
    end).
  destruct (truthy _); [|done].
  rewrite getitem_item.
  destruct (item d "dvd_path") as [v|?] eqn:Hv; simpl; [|done].
  rewrite check_path_checked. destruct (checked (fs s) v); [|done].
  rewrite getitem_item, Hv. by destruct v.
Qed.

End validation.

(** ** The argument vector *)

Section command_line.
Import Py Xqemu.

Lemma string_app_assoc (a b c : string) : (a +:+ b) +:+ c = a +:+ b +:+ c.
Proof.
  induction a as [|x a IH]; [done|].
  change (String x ((a +:+ b) +:+ c) = String x (a +:+ b +:+ c)).
  by rewrite IH.
Qed.

Lemma split_app2_space a b c r :
  isspace c = true → split (a +:+ b +:+ String c r) = split (a +:+ b) ++ split r.
Proof. intros Hc. rewrite <- (string_app_assoc a b (String c r)). by apply split_app_space. Qed.

Lemma split_app3_space a b d c r :
  isspace c = true →
  split (a +:+ b +:+ d +:+ String c r) = split (a +:+ b +:+ d) ++ split r.
Proof.
  intros Hc.
  replace (a +:+ b +:+ d +:+ String c r) with ((a +:+ b +:+ d) +:+ String c r)
    by (by rewrite !string_app_assoc).
  by apply split_app_space.
Qed.

Lemma split_word_space w c r :
  w ≠ "" → nospace w = true → isspace c = true →
  split (w +:+ String c r) = w :: split r.
Proof. intros ???. rewrite split_app_space by done. by rewrite split_word. Qed.

Ltac skip := etransitivity; [refine (split_space_cons _ _ _); reflexivity|].
Ltac piece a := etransitivity; [refine (split_app_space a _ _ _); reflexivity|]; apply (f_equal (app _)).
Ltac piece3 a b d := etransitivity; [refine (split_app3_space a b d _ _ _); reflexivity|]; apply (f_equal (app _)).
Ltac word w :=
  etransitivity; [refine (split_word_space w _ _ _ _ _); done|];
  apply (f_equal (cons w)).

(** The words of the command string: the fixed options are always
    there, in order; between them come the words of each inserted text. *)
Lemma split_cmd x m f h sa dv :
  split (cmd x m f h sa dv) =
  split (str x) ++
  "-cpu" :: "pentium3" :: "-machine" ::
  split ("xbox,bootrom=" +:+ str m +:+ sa) ++
  "-m" :: "64" :: "-bios" ::
  split (str f) ++
  "-net" :: "nic,model=nvnet" :: "-net" :: "user" :: "-monitor" :: "stdio" ::
  "-drive" ::
  split ("file=" +:+ str h +:+ ",index=0,media=disk") ++
  "-drive" :: split ("index=1,media=cdrom" +:+ dv).
Proof.
  unfold cmd, tabs.
  piece (str x).
  do 3 skip. word "-cpu". word "pentium3". do 3 skip. word "-machine".
  piece3 "xbox,bootrom=" (str m) sa.
  word "-m". word "64". do 3 skip. word "-bios".
  piece (str f).
  do 3 skip. word "-net". word "nic,model=nvnet". word "-net". word "user".
  do 3 skip. word "-monitor". word "stdio". do 3 skip. word "-drive".
  piece3 "file=" (str h) ",index=0,media=disk".
  do 3 skip. word "-drive". reflexivity.
Qed.
End command_line.
(** ** The launch *)

Section launch_lemmas.
Import Py Xqemu.

Lemma launch_ok args s :
  launchable s args = true → launch args s = (Ok (), spawned args s).
Proof.
  intros H. unfold launch, mbind, M_bind, Popen. by rewrite H.
Qed.

Lemma launch_refused args s :
  launchable s args = false →
  launch args s = (Raise (OSError (default "" (head args))), s).
Proof.
  intros H. unfold launch, mbind, M_bind, Popen. by rewrite H.
Qed.

(** When the four required paths pass, what is left of the plan is the
    optical disc. *)
Lemma plan_validated d f x m fl h sa dp :
  validated d f x m fl h →
  d !! "short_anim" = Some sa → d !! "dvd_present" = Some dp →
  plan d f =
  dvd_path_arg ←
    (if truthy dp
     then dvd_path ← item d "dvd_path";
          checked f dvd_path;;
          match dvd_path with
          | VStr p => Ok (",file=" +:+ p)
          | VBool _ => Raise TypeError
          end
     else Ok "");
  Ok (split (cmd (VStr x) (VStr m) (VStr fl) (VStr h)
               (if truthy sa then ",short_animation" else "")
               dvd_path_arg)).
Proof.
  intros (Hx & Fx & Hm & Fm & Hf & Ff & Hh & Fh) Hsa Hdp.
  unfold plan, item, checked.
  rewrite Hx, Hm, Hf, Hh, Hsa, Hdp; simpl.
  by rewrite Fx, Fm, Ff, Fh.
Qed.

(** A launch that returns has spawned the planned arguments. *)
Lemma start_ok_inv d s s' :
  start d s = (Ok (), s') →
  ∃ args, plan d (fs s) = Ok args ∧ launchable s args = true ∧
          s' = spawned args s.
Proof.
  rewrite start_plan. destruct (plan d (fs s)) as [args|e]; [|done].
  destruct (launchable s args) eqn:Hl.
  - rewrite launch_ok by done. intros [= <-]. by exists args.
  - by rewrite launch_refused.
Qed.

(** A launch that raises has changed nothing. *)
Lemma start_raise_inv d s e s' : start d s = (Raise e, s') → s' = s.
Proof.
  rewrite start_plan. destruct (plan d (fs s)) as [args|e']; [|congruence].
  destruct (launchable s args) eqn:Hl.
  - by rewrite launch_ok.
  - rewrite launch_refused by done. congruence.
Qed.

End launch_lemmas.
Section argv_lemmas.
Import Py Xqemu.

Lemma endswith_refl t : endswith t t = true.
Proof.
  destruct t as [|c t]; [done|]. simpl.
  apply orb_true_iff. left. by apply bool_decide_eq_true.
Qed.

Lemma endswith_cons t c w : endswith t w = true → endswith t (String c w) = true.
Proof. intros H. simpl. rewrite H. apply orb_true_r. Qed.

Lemma endswith_app a t : endswith t (a +:+ t) = true.
Proof.
  induction a as [|c a IH]; [apply endswith_refl|].
  change (String c a +:+ t) with (String c (a +:+ t)).
  by apply endswith_cons.
Qed.

Lemma prefix_app p x : String.prefix p (p +:+ x) = true.
Proof.
  induction p as [|a p IH].
  - by destruct x.
  - change (String a p +:+ x) with (String a (p +:+ x)).
    cbn [String.prefix]. by destruct (ascii_dec a a).
Qed.

Lemma endswith_nonempty t w : t ≠ "" → endswith t w = true → w ≠ "".
Proof.
  intros Ht H ->. simpl in H. rewrite orb_false_r in H.
  by apply bool_decide_eq_true in H.
Qed.

Lemma elem_of_push_word w ws v :
  v ∈ push_word w ws ↔ (v = w ∧ w ≠ "") ∨ v ∈ ws.
Proof.
  destruct w as [|c w]; simpl.
  - split; [by right|]. by intros [[_ ?]|?].
  - rewrite elem_of_cons. split.
    + intros [->|?]; [by left|by right].
    + intros [[-> _]|?]; [by left|by right].
Qed.

(** A text that ends in a whitespace-free suffix has a word that ends in
    that suffix. *)
Lemma split_suffix a t :
  t ≠ "" → nospace t = true →
  ∃ w, w ∈ split (a +:+ t) ∧ endswith t w = true.
Proof.
  intros Ht Hn.
  assert (endswith t (scan (a +:+ t)).1 = true ∨
          ∃ w, w ∈ (scan (a +:+ t)).2 ∧ endswith t w = true) as H.
  { induction a as [|c a IH].
    - left. change ("" +:+ t) with t. rewrite scan_nospace by done.
      apply endswith_refl.
    - change (String c a +:+ t) with (String c (a +:+ t)). simpl.
      destruct (scan (a +:+ t)) as [w ws]; simpl in *.
      destruct (isspace c); simpl.
      + right. destruct IH as [IH|(v & Hv & IH)].
        * exists w. split; [|done]. apply elem_of_push_word. left.
          split; [done|]. by eapply endswith_nonempty.
        * exists v. split; [|done]. apply elem_of_push_word. by right.
      + destruct IH as [IH|IH]; [left|by right].
        by apply endswith_cons. }
  unfold split. destruct (scan (a +:+ t)) as [w ws]; simpl in *.
  destruct H as [H|(v & Hv & H)].
  - exists w. split; [|done]. apply elem_of_push_word. left.
    split; [done|]. by eapply endswith_nonempty.
  - exists v. split; [|done]. apply elem_of_push_word. by right.
Qed.

(** The command string denotes the intended vector exactly when no
    inserted text has whitespace in it and the two texts that stand alone
    are not empty. *)
Lemma split_cmd_intended x m fl h sa dv :
  split (cmd (VStr x) (VStr m) (VStr fl) (VStr h) sa dv)
    = intended_argv x m fl h sa dv
  ↔ x ≠ "" ∧ fl ≠ "" ∧
    nospace x = true ∧ nospace m = true ∧ nospace sa = true ∧
    nospace fl = true ∧ nospace h = true ∧ nospace dv = true.
Proof.
  split.
  - intros Heq. pose proof (split_words (cmd (VStr x) (VStr m) (VStr fl) (VStr h) sa dv)) as Hall.
    rewrite Heq in Hall. unfold intended_argv in Hall.
    repeat match goal with
           | H : Forall _ (_ :: _) |- _ => apply Forall_cons in H as [[??] H]
           end.
    rewrite !nospace_app in *.
    repeat match goal with
           | H : _ && _ = true |- _ => apply andb_prop in H as [??]
           end.
    done.
  - intros (Hx & Hf & Nx & Nm & Nsa & Nf & Nh & Ndv).
    rewrite split_cmd. simpl str.
    rewrite (split_word x), (split_word fl) by done.
    rewrite !split_word; [done|..]; try done.
    all: try (rewrite !nospace_app; by rewrite ?Nm, ?Nsa, ?Nh, ?Ndv).
Qed.

End argv_lemmas.

(** ** The claims on [start] *)

Section start_claims.
Import Py Xqemu.

(** C1, as the code has it: when the four required paths pass the check,
    the optical disc is absent and the short animation is asked for,
    [start] spawns the words of the command string with
    [,short_animation] right after the boot ROM path and nothing after
    [media=cdrom].  Whatever the paths, some argument ends in
    [,short_animation] and the last two arguments are [-drive] and
    [index=1,media=cdrom].  When the boot ROM path has no whitespace the
    suffix is on the boot ROM option itself; when none of the four paths
    has, the vector is the intended one, argument by argument, in which
    the second drive is declared with no file. *)
Theorem start_short_animation_without_disc d s x m fl h sa dp :
  validated d (fs s) x m fl h →
  d !! "short_anim" = Some sa → truthy sa = true →
  d !! "dvd_present" = Some dp → truthy dp = false →
  let args :=
    split (cmd (VStr x) (VStr m) (VStr fl) (VStr h) ",short_animation" "") in
  start d s = launch args s ∧
  (∃ w, w ∈ args ∧ endswith ",short_animation" w = true) ∧
  (∃ front, args = front ++ ["-drive"; "index=1,media=cdrom"]) ∧
  (nospace m = true →
   ("xbox,bootrom=" +:+ m +:+ ",short_animation") ∈ args ∧
   bootrom_suffixed args) ∧
  (x ≠ "" → fl ≠ "" →
   nospace x = true → nospace m = true →
   nospace fl = true → nospace h = true →
   args = intended_argv x m fl h ",short_animation" "").
Proof.
  intros Hv Hsa Tsa Hdp Tdp args. split; [|split; [|split; [|split]]].
  - rewrite start_plan, (plan_validated _ _ _ _ _ _ _ _ Hv Hsa Hdp).
    by rewrite Tsa, Tdp.
  - subst args. rewrite split_cmd.
    destruct (split_suffix ("xbox,bootrom=" +:+ str (VStr m))
                ",short_animation") as (w & Hw & He); [done..|].
    exists w. split; [|done].
    rewrite elem_of_app. right. rewrite !elem_of_cons. do 3 right.
    rewrite elem_of_app. left.
    replace ("xbox,bootrom=" +:+ str (VStr m) +:+ ",short_animation")
      with (("xbox,bootrom=" +:+ str (VStr m)) +:+ ",short_animation"); [done|].
    apply string_app_assoc.
  - subst args. rewrite split_cmd.
    rewrite (split_word ("index=1,media=cdrom" +:+ "")) by done.
    exists (split x ++
      "-cpu" :: "pentium3" :: "-machine" ::
      split ("xbox,bootrom=" +:+ m +:+ ",short_animation") ++
      "-m" :: "64" :: "-bios" ::
      split fl ++
      "-net" :: "nic,model=nvnet" :: "-net" :: "user" ::
      "-monitor" :: "stdio" :: "-drive" ::
      split ("file=" +:+ h +:+ ",index=0,media=disk")).
    simpl str. by repeat (rewrite <- app_assoc; simpl).
  - intros Nm.
    assert (("xbox,bootrom=" +:+ m +:+ ",short_animation") ∈ args) as Hin.
    { subst args. rewrite split_cmd. simpl str.
      rewrite (split_word ("xbox,bootrom=" +:+ m +:+ ",short_animation"));
        [|done|by rewrite !nospace_app, Nm].
      rewrite elem_of_app. right. rewrite !elem_of_cons. do 3 right.
      rewrite elem_of_app. left. by apply list_elem_of_singleton. }
    split; [done|].
    exists ("xbox,bootrom=" +:+ m +:+ ",short_animation").
    split; [done|]. split; [apply prefix_app|].
    rewrite <- string_app_assoc. apply endswith_app.
  - intros. subst args. apply split_cmd_intended. by repeat split.
Qed.

Lemma start_short_animation_without_disc_witness :
  start demo_settings demo_state =
    (Ok (), spawned (intended_argv "/opt/xqemu" "/rom/mcpx.bin" "/rom/flash.bin" "/img/hdd.img" ",short_animation" "") demo_state).
Proof.
  destruct (start_short_animation_without_disc demo_settings demo_state
    "/opt/xqemu" "/rom/mcpx.bin" "/rom/flash.bin" "/img/hdd.img"
    (VBool true) (VBool false)) as (H1 & _ & _ & _ & H4).
  - by repeat split.
  - done.
  - done.
  - done.
  - done.
  - rewrite H1, H4 by done. done.
Defined.

(** C1 as the claim words it does not hold of every configuration that
    passes the checks.  The settings [odd_settings] pass them, with the
    disc absent and the short animation asked for, and the process is
    spawned with these arguments: no argument that starts with
    [xbox,bootrom=] ends in [,short_animation], which stands alone, and
    an argument declares the second drive with a file attached. *)
Lemma short_animation_without_disc_counterexample :
  validated odd_settings (fs odd_state) "/opt/xqemu" "/rom/mcpx.bin "
    "/rom/flash.bin" "/img/hdd.img -drive index=1,media=cdrom,file=/x.iso" ∧
  odd_settings !! "short_anim" = Some (VBool true) ∧
  odd_settings !! "dvd_present" = Some (VBool false) ∧
  start odd_settings odd_state
  = (Ok (),
     spawned
       ["/opt/xqemu"; "-cpu"; "pentium3"; "-machine";
        "xbox,bootrom=/rom/mcpx.bin"; ",short_animation"; "-m"; "64";
        "-bios"; "/rom/flash.bin"; "-net"; "nic,model=nvnet"; "-net";
        "user"; "-monitor"; "stdio"; "-drive"; "file=/img/hdd.img";
        "-drive"; "index=1,media=cdrom,file=/x.iso,index=0,media=disk";
        "-drive"; "index=1,media=cdrom"]
       odd_state) ∧
  ¬ bootrom_suffixed (argv_of_last (start odd_settings odd_state).2) ∧
  Exists (λ w, disc_file_argument w = true)
         (argv_of_last (start odd_settings odd_state).2).
Proof.
  assert (start odd_settings odd_state
          = (Ok (),
             spawned
               ["/opt/xqemu"; "-cpu"; "pentium3"; "-machine";
                "xbox,bootrom=/rom/mcpx.bin"; ",short_animation"; "-m"; "64";
                "-bios"; "/rom/flash.bin"; "-net"; "nic,model=nvnet"; "-net";
                "user"; "-monitor"; "stdio"; "-drive"; "file=/img/hdd.img";
                "-drive";
                "index=1,media=cdrom,file=/x.iso,index=0,media=disk";
                "-drive"; "index=1,media=cdrom"]
               odd_state)) as Hs by (vm_compute; reflexivity).
  split; [by repeat split|]. split; [done|]. split; [done|].
  split; [exact Hs|]. rewrite Hs. cbn [snd]. split.
  - intros (w & Hin & Hp & He). apply list_elem_of_In in Hin.
    unfold argv_of_last in Hin. cbn in Hin.
    repeat (destruct Hin as [<-|Hin];
            [vm_compute in Hp; vm_compute in He; congruence|]).
    done.
  - unfold argv_of_last. cbn. do 19 apply Exists_cons_tl.
    apply Exists_cons_hd. reflexivity.
Qed.

(** C2: with the optical disc present and its path naming nothing, while
    the four required paths pass, [start] raises the missing-path error
    that names the disc path, and the state is the one it was called in:
    no process was spawned and the retained handle is what it was. *)
Theorem start_missing_disc d s x m fl h sa dp dvd :
  validated d (fs s) x m fl h →
  d !! "short_anim" = Some sa →
  d !! "dvd_present" = Some dp → truthy dp = true →
  d !! "dvd_path" = Some (VStr dvd) → exists_in (fs s) dvd = false →
  start d s = (Raise (missing_path dvd), s) ∧
  procs (start d s).2 = procs s ∧ _p (start d s).2 = _p s.
Proof.
  intros Hv Hsa Hdp Tdp Hdvd Hex.
  assert (start d s = (Raise (missing_path dvd), s)) as ->; [|done].
  rewrite start_plan, (plan_validated _ _ _ _ _ _ _ _ Hv Hsa Hdp).
  rewrite Tdp. unfold item. rewrite Hdvd. simpl.
  unfold is_file. by rewrite Hex.
Qed.

Lemma start_missing_disc_witness :
  start (<["dvd_present" := VBool true]> demo_settings) demo_state
  = (Raise (Exception "File /path/to/disc.iso could not be found!"),
     demo_state).
Proof.
  apply (start_missing_disc _ demo_state
           "/opt/xqemu" "/rom/mcpx.bin" "/rom/flash.bin" "/img/hdd.img"
           (VBool true) (VBool true) "/path/to/disc.iso").
  - by repeat split.
  - done.
  - done.
  - done.
  - done.
  - done.
Defined.

Ltac in_keys := apply list_elem_of_In; cbn; tauto.

(** The plan reads the filesystem only through the check of the paths it
    is given. *)
Lemma checked_agree f f' v :
  (∀ p, v = VStr p → is_file f' p = is_file f p) →
  checked f' v = checked f v.
Proof. intros H. destruct v as [p|b]; [|done]. simpl. by rewrite (H p). Qed.

Lemma plan_without_disc d f f' dp :
  d !! "dvd_present" = Some dp → truthy dp = false →
  (∀ k p, k ∈ required → d !! k = Some (VStr p) →
          is_file f' p = is_file f p) →
  plan d f' = plan d f.
Proof.
  intros Hdp Tdp Hag. unfold plan, item.
  assert (∀ k v, k ∈ required → d !! k = Some v →
                 checked f' v = checked f v) as Hc.
  { intros k v Hk Hv. apply checked_agree. intros p ->. by eapply Hag. }
  destruct (d !! "xqemu_path") as [v1|] eqn:H1; [|done]; simpl.
  rewrite (Hc "xqemu_path" v1) by (done || in_keys).
  destruct (checked f v1); [|done]; simpl.
  destruct (d !! "mcpx_path") as [v2|] eqn:H2; [|done]; simpl.
  rewrite (Hc "mcpx_path" v2) by (done || in_keys).
  destruct (checked f v2); [|done]; simpl.
  destruct (d !! "flash_path") as [v3|] eqn:H3; [|done]; simpl.
  rewrite (Hc "flash_path" v3) by (done || in_keys).
  destruct (checked f v3); [|done]; simpl.
  destruct (d !! "hdd_path") as [v4|] eqn:H4; [|done]; simpl.
  rewrite (Hc "hdd_path" v4) by (done || in_keys).
  destruct (checked f v4); [|done]; simpl.
  destruct (d !! "short_anim"); [|done]; simpl.
  rewrite Hdp; simpl. by rewrite Tdp.
Qed.

(** The plan reads seven keys of the settings. *)
Lemma plan_ext d d' f :
  (∀ k, k ∈ required ++ ["short_anim"; "dvd_present"; "dvd_path"] →
        d' !! k = d !! k) →
  plan d' f = plan d f.
Proof.
  intros H. unfold plan, item.
  by rewrite !H by in_keys.
Qed.

(** Without a disc, the plan does not read the disc path. *)
Lemma plan_ext_without_disc d d' f dp :
  d !! "dvd_present" = Some dp → truthy dp = false →
  (∀ k, k ∈ required ++ ["short_anim"; "dvd_present"] → d' !! k = d !! k) →
  plan d' f = plan d f.
Proof.
  intros Hdp Tdp H. unfold plan, item.
  rewrite (H "xqemu_path"), (H "mcpx_path"), (H "flash_path"),
    (H "hdd_path"), (H "short_anim"), (H "dvd_present") by in_keys.
  destruct (d !! "xqemu_path") as [v1|]; [|done]; simpl.
  destruct (checked f v1); [|done]; simpl.
  destruct (d !! "mcpx_path") as [v2|]; [|done]; simpl.
  destruct (checked f v2); [|done]; simpl.
  destruct (d !! "flash_path") as [v3|]; [|done]; simpl.
  destruct (checked f v3); [|done]; simpl.
  destruct (d !! "hdd_path") as [v4|]; [|done]; simpl.
  destruct (checked f v4); [|done]; simpl.
  destruct (d !! "short_anim"); [|done]; simpl.
  rewrite Hdp; simpl. by rewrite Tdp.
Qed.

Lemma launch_set_fs args f s :
  launch args (set_fs f s) =
  ((launch args s).1, set_fs f (launch args s).2).
Proof.
  unfold launch, mbind, M_bind, Popen; simpl.
  by destruct (launchable s args).
Qed.

(** An error for a path not found comes from a path that was checked. *)
Lemma plan_missing d f msg :
  plan d f = Raise (Exception msg) →
  ∃ k p, k ∈ required ++ ["dvd_path"] ∧ d !! k = Some (VStr p) ∧
         is_file f p = false ∧ Exception msg = missing_path p ∧
         (k = "dvd_path" → ∃ dp, d !! "dvd_present" = Some dp ∧ truthy dp = true).
Proof.
  unfold plan, item.
  assert (∀ k v, d !! k = Some v → k ∈ required ++ ["dvd_path"] →
     (k = "dvd_path" → ∃ dp, d !! "dvd_present" = Some dp ∧ truthy dp = true) →
     checked f v = Raise (Exception msg) →
     ∃ k p, k ∈ required ++ ["dvd_path"] ∧ d !! k = Some (VStr p) ∧
            is_file f p = false ∧ Exception msg = missing_path p ∧
            (k = "dvd_path" → ∃ dp, d !! "dvd_present" = Some dp ∧ truthy dp = true)) as Hc.
  { intros k [p|b] Hk Hin Hd; simpl; [|done].
    destruct (is_file f p) eqn:Hf; [done|]. intros [= E].
    exists k, p. repeat split; try done. unfold missing_path. by rewrite E. }
  destruct (d !! "xqemu_path") as [v1|] eqn:H1; [|done]; simpl.
  destruct (checked f v1) eqn:C1; simpl;
    [|intros [= ->]; eapply Hc; [done|in_keys|done|done]].
  destruct (d !! "mcpx_path") as [v2|] eqn:H2; [|done]; simpl.
  destruct (checked f v2) eqn:C2; simpl;
    [|intros [= ->]; eapply Hc; [done|in_keys|done|done]].
  destruct (d !! "flash_path") as [v3|] eqn:H3; [|done]; simpl.
  destruct (checked f v3) eqn:C3; simpl;
    [|intros [= ->]; eapply Hc; [done|in_keys|done|done]].
  destruct (d !! "hdd_path") as [v4|] eqn:H4; [|done]; simpl.
  destruct (checked f v4) eqn:C4; simpl;
    [|intros [= ->]; eapply Hc; [done|in_keys|done|done]].
  destruct (d !! "short_anim") as [v5|] eqn:H5; [|done]; simpl.
  destruct (d !! "dvd_present") as [v6|] eqn:H6; [|done]; simpl.
  destruct (truthy v6) eqn:T6; [|done].
  destruct (d !! "dvd_path") as [v7|] eqn:H7; [|done]; simpl.
  destruct (checked f v7) eqn:C7; simpl.
  - by destruct v7.
  - intros [= ->]. eapply Hc; [done|in_keys| |done]. intros _. by exists v6.
Qed.

(** C3: with the optical disc absent, [start] reads the filesystem only
    at the four required paths: on any other filesystem where those four
    pass or fail the check alike, it returns or raises the same and does
    the same to the processes.  The text under [dvd_path] is not read
    either, and an error for a path not found names one of the four
    required paths, which fails the check. *)
Theorem start_ignores_absent_disc d s dp :
  d !! "dvd_present" = Some dp → truthy dp = false →
  (∀ f', (∀ k p, k ∈ required → d !! k = Some (VStr p) →
                 is_file f' p = is_file (fs s) p) →
         start d (set_fs f' s) =
         ((start d s).1, set_fs f' (start d s).2)) ∧
  (∀ v, start (<["dvd_path" := v]> d) s = start d s) ∧
  start (delete "dvd_path" d) s = start d s ∧
  (∀ msg, (start d s).1 = Raise (Exception msg) →
          ∃ k p, k ∈ required ∧ d !! k = Some (VStr p) ∧
                 is_file (fs s) p = false ∧
                 Exception msg = missing_path p).
Proof.
  intros Hdp Tdp. split; [|split; [|split]].
  - intros f' Hag. rewrite !start_plan. simpl fs.
    rewrite (plan_without_disc d (fs s) f' dp) by done.
    destruct (plan d (fs s)) as [args|e]; [|done].
    apply launch_set_fs.
  - intros v. rewrite !start_plan.
    rewrite (plan_ext_without_disc d (<["dvd_path" := v]> d) _ dp); [done..|].
    intros k Hk. apply lookup_insert_ne. intros <-.
    apply list_elem_of_In in Hk. cbn in Hk. intuition discriminate.
  - rewrite !start_plan.
    rewrite (plan_ext_without_disc d (delete "dvd_path" d) _ dp); [done..|].
    intros k Hk. apply lookup_delete_ne. intros <-.
    apply list_elem_of_In in Hk. cbn in Hk. intuition discriminate.
  - intros msg. rewrite start_plan.
    destruct (plan d (fs s)) as [args|e] eqn:Hp.
    + destruct (launchable s args) eqn:Hl.
      * by rewrite launch_ok.
      * by rewrite launch_refused.
    + simpl. intros [= ->].
      destruct (plan_missing _ _ _ Hp) as (k & p & Hk & Hd & Hf & He & Hdvd).
      exists k, p. repeat split; try done.
      apply elem_of_app in Hk as [Hk|Hk]; [done|].
      apply list_elem_of_singleton in Hk.
      destruct (Hdvd Hk) as (dp' & Hdp' & Tdp'). congruence.
Qed.

Lemma start_ignores_absent_disc_witness :
  start demo_settings
    (set_fs (<["/path/to/disc.iso" := File ""]> demo_fs) demo_state)
  = ((start demo_settings demo_state).1,
     set_fs (<["/path/to/disc.iso" := File ""]> demo_fs)
       (start demo_settings demo_state).2).
Proof.
  assert (demo_settings !! "dvd_present" = Some (VBool false)) as Hdp
    by reflexivity.
  destruct (start_ignores_absent_disc demo_settings demo_state (VBool false)
              Hdp eq_refl) as [H _].
  apply H. intros k p Hk Hd.
  apply list_elem_of_In in Hk. cbn in Hk.
  destruct Hk as [<-|[<-|[<-|[<-|[]]]]];
    vm_compute in Hd; injection Hd as <-; reflexivity.
Defined.

(** C4: when the emulator path names a directory, [start] raises the
    missing-path error for it and leaves the state as it was, so nothing
    is spawned.  [check_path] raises for a path exactly when the path
    does not exist or is a directory, and returns otherwise; either way
    it changes nothing. *)
Theorem start_rejects_directory d s x :
  d !! "xqemu_path" = Some (VStr x) → fs s !! x = Some Dir →
  start d s = (Raise (missing_path x), s) ∧
  (∀ q t, check_path (VStr q) t = (Raise (missing_path q), t) ↔
          exists_in (fs t) q = false ∨ isdir_in (fs t) q = true) ∧
  (∀ q t, check_path (VStr q) t = (Ok (), t) ↔
          exists_in (fs t) q = true ∧ isdir_in (fs t) q = false).
Proof.
  intros Hx Hdir. split; [|split].
  - rewrite start_plan. unfold plan, item. rewrite Hx. simpl.
    unfold is_file, exists_in, isdir_in. by rewrite Hdir.
  - intros q t. rewrite check_path_checked. simpl. unfold is_file.
    destruct (exists_in (fs t) q), (isdir_in (fs t) q); simpl;
      split; (done || tauto || intuition discriminate).
  - intros q t. rewrite check_path_checked. simpl. unfold is_file.
    destruct (exists_in (fs t) q), (isdir_in (fs t) q); simpl;
      split; (done || tauto || intuition discriminate).
Qed.

Lemma start_rejects_directory_witness :
  start (<["xqemu_path" := VStr "/img"]> demo_settings) demo_state
  = (Raise (Exception "File /img could not be found!"), demo_state).
Proof.
  apply (start_rejects_directory _ demo_state "/img"); reflexivity.
Defined.

(** C10: [start] does not read [hdd_locked]: settings that agree on every
    other key give the same result and the same state, whatever the flag
    holds and whether it is there at all; [stop] and [isRunning] take no
    settings, and the ones the store holds do not reach them. *)
Theorem start_ignores_hdd_locked d d' s :
  (∀ k, k ≠ "hdd_locked" → d' !! k = d !! k) →
  start d' s = start d s ∧
  (∀ c, stop (set_settings c s) = ((stop s).1, set_settings c (stop s).2)) ∧
  (∀ c, isRunning (set_settings c s) = isRunning s).
Proof.
  intros H. split; [|split].
  - rewrite !start_plan. rewrite (plan_ext d d'); [done|].
    intros k Hk. apply H. intros ->.
    apply list_elem_of_In in Hk. cbn in Hk. intuition discriminate.
  - intros c. unfold stop, mbind, M_bind, gets; simpl.
    by destruct (_p s).
  - done.
Qed.

Lemma start_ignores_hdd_locked_witness :
  start (<["hdd_locked" := VBool false]> demo_settings) demo_state
  = start demo_settings demo_state.
Proof.
  apply (start_ignores_hdd_locked demo_settings
           (<["hdd_locked" := VBool false]> demo_settings) demo_state).
  intros k Hk. by apply lookup_insert_ne.
Defined.

(** C5: after [start] has returned, [isRunning] is true; after the [stop]
    that follows, which returns, it is false; and [isRunning] is true
    exactly when a handle is retained, whatever the process table says of
    that process. *)
Theorem isRunning_after_start_and_stop d s s' :
  start d s = (Ok (), s') →
  isRunning s' = true ∧
  (stop s').1 = Ok () ∧ isRunning (stop s').2 = false ∧
  (∀ t, isRunning t = true ↔ ∃ h, _p t = Some h) ∧
  (∀ t l, isRunning (set_procs l t) = isRunning t).
Proof.
  intros Hs. apply start_ok_inv in Hs as (args & _ & _ & ->).
  split; [done|]. split; [done|]. split; [done|]. split; [|done].
  intros t. unfold isRunning. rewrite bool_decide_eq_true.
  destruct (_p t) as [h|]; split; [by exists h|done|done|by intros [h ?]].
Qed.

Lemma isRunning_after_start_and_stop_witness :
  isRunning (start demo_settings demo_state).2 = true ∧
  isRunning (stop (start demo_settings demo_state).2).2 = false.
Proof.
  destruct (isRunning_after_start_and_stop demo_settings demo_state
              (start demo_settings demo_state).2) as (H1 & _ & H2 & _).
  - vm_compute. reflexivity.
  - by split.
Defined.

Lemma stop_retained s h :
  _p s = Some h →
  stop s =
  (Ok (), set_p None
            (set_procs (alter (λ c, Process (argv c) true) h (procs s)) s)).
Proof. intros H. unfold stop, mbind, M_bind, gets. by rewrite H. Qed.

Lemma stop_idle s : _p s = None → stop s = (Ok (), s).
Proof. intros H. unfold stop, mbind, M_bind, gets. by rewrite H. Qed.

(** C6: [start] does not look at the retained handle.  When a handle [h]
    is retained and validation succeeds with arguments [args], the call
    goes on to the spawn.  If the OS launches the process, a second
    process is in the table beside the first, the retained handle is the
    new one, and the first process is as it was; the [stop] that follows
    asks the new process to terminate, leaves the first one alone and
    retains nothing, so that a further [stop] does nothing. *)
Theorem start_while_active d s h args :
  _p s = Some h → h < length (procs s) →
  plan d (fs s) = Ok args →
  start d s = launch args s ∧
  (start d s).1 = (start d (set_p None s)).1 ∧
  (launchable s args = true →
   let h' := length (procs s) in
   let s' := (start d s).2 in
   let s'' := (stop s').2 in
   (start d s).1 = Ok () ∧
   _p s' = Some h' ∧ h' ≠ h ∧
   procs s' !! h' = Some (Process args false) ∧
   procs s' !! h = procs s !! h ∧
   (stop s').1 = Ok () ∧ _p s'' = None ∧
   procs s'' !! h' = Some (Process args true) ∧
   procs s'' !! h = procs s !! h ∧
   stop s'' = (Ok (), s'')).
Proof.
  intros Hp Hh Hplan. split; [|split].
  - by rewrite start_plan, Hplan.
  - rewrite !start_plan. simpl fs. rewrite Hplan.
    unfold launch, mbind, M_bind, Popen; simpl.
    by destruct (launchable s args).
  - intros Hl h' s' s''.
    assert (start d s = (Ok (), spawned args s)) as Hs.
    { rewrite start_plan, Hplan. by apply launch_ok. }
    subst s' s''. rewrite Hs. cbn [fst snd].
    rewrite (stop_retained (spawned args s) h') by done. simpl.
    split; [done|]. split; [done|]. split; [subst h'; lia|].
    split; [by rewrite lookup_app_r, Nat.sub_diag by lia|].
    split; [by rewrite lookup_app_l by lia|].
    split; [done|]. split; [done|].
    split.
    { rewrite list_lookup_alter_eq.
      by rewrite lookup_app_r, Nat.sub_diag by lia. }
    split.
    { rewrite list_lookup_alter_ne by (subst h'; lia).
      by rewrite lookup_app_l by lia. }
    by apply stop_idle.
Qed.

Lemma start_while_active_witness :
  _p (start demo_settings demo_active).2 = Some 1 ∧
  procs (stop (start demo_settings demo_active).2).2 !! 0
    = Some (Process ["/opt/xqemu"; "-cpu"; "pentium3"] false).
Proof.
  assert (plan demo_settings (fs demo_active)
          = Ok (intended_argv "/opt/xqemu" "/rom/mcpx.bin" "/rom/flash.bin"
                  "/img/hdd.img" ",short_animation" "")) as Hplan
    by (vm_compute; reflexivity).
  destruct (start_while_active demo_settings demo_active 0 _
              eq_refl (le_n 1) Hplan) as (_ & _ & H).
  destruct (H eq_refl) as (_ & H1 & _ & _ & _ & _ & _ & _ & H2 & _).
  split; [exact H1|exact H2].
Defined.

(** C9: a path with whitespace in it is cut into several arguments.  The
    settings with the hard disk image [/img/my disk.img] pass every
    check, and the process is spawned with [file=/img/my] and
    [disk.img,index=0,media=disk] as two arguments, twenty in all.  For
    every hard disk path with a whitespace character the argument that
    should carry it is not in the vector; and the vector is the intended
    one exactly when no inserted text has whitespace and neither of the
    two texts that stand alone is empty. *)
Theorem whitespace_path_is_split :
  (∃ args,
     validated spaced_settings (fs spaced_state) "/opt/xqemu"
       "/rom/mcpx.bin" "/rom/flash.bin" "/img/my disk.img" ∧
     start spaced_settings spaced_state = (Ok (), spawned args spaced_state) ∧
     "file=/img/my" ∈ args ∧ "disk.img,index=0,media=disk" ∈ args ∧
     ("file=/img/my disk.img,index=0,media=disk" ∉ args) ∧
     length args = 20) ∧
  (∀ x m fl h sa dv,
     nospace h = false →
     ("file=" +:+ h +:+ ",index=0,media=disk")
       ∉ split (cmd (VStr x) (VStr m) (VStr fl) (VStr h) sa dv)) ∧
  (∀ x m fl h sa dv,
     split (cmd (VStr x) (VStr m) (VStr fl) (VStr h) sa dv)
       = intended_argv x m fl h sa dv
     ↔ x ≠ "" ∧ fl ≠ "" ∧
       nospace x = true ∧ nospace m = true ∧ nospace sa = true ∧
       nospace fl = true ∧ nospace h = true ∧ nospace dv = true).
Proof.
  split; [|split].
  - exists ["/opt/xqemu"; "-cpu"; "pentium3"; "-machine";
            "xbox,bootrom=/rom/mcpx.bin,short_animation"; "-m"; "64";
            "-bios"; "/rom/flash.bin"; "-net"; "nic,model=nvnet"; "-net";
            "user"; "-monitor"; "stdio"; "-drive"; "file=/img/my";
            "disk.img,index=0,media=disk"; "-drive"; "index=1,media=cdrom"].
    split; [by repeat split|].
    split; [vm_compute; reflexivity|].
    split; [in_keys|]. split; [in_keys|]. split; [|done].
    intros Hin. apply list_elem_of_In in Hin. cbn in Hin.
    intuition discriminate.
  - intros x m fl h sa dv Hh Hin.
    pose proof (split_words (cmd (VStr x) (VStr m) (VStr fl) (VStr h) sa dv))
      as Hall.
    rewrite Forall_forall in Hall. destruct (Hall _ Hin) as [_ Hn].
    rewrite !nospace_app, Hh in Hn. simpl in Hn. discriminate.
  - apply split_cmd_intended.
Qed.

End start_claims.

(** ** The claims on the settings store *)

Section store_claims.
Import SettingsManager.

(** What [save] writes for the defaults reads back as the defaults. *)
Lemma loads_dumps_defaults : Json.loads (Json.dumps defaults) = Some defaults.
Proof. vm_compute. reflexivity. Qed.

(** [save] writes the document of the settings, unless a directory is
    in the way. *)
Lemma save_ok s :
  fs s !! SETTINGS_FILE ≠ Some Dir →
  save s =
  (Ok (), set_fs (<[SETTINGS_FILE := File (Json.dumps (settings s))]> (fs s)) s).
Proof.
  intros Hdir. unfold save, mbind, M_bind, open_w.
  assert (∀ f : gmap string node,
    write SETTINGS_FILE (Json.dumps (settings s))
      (set_fs (<[SETTINGS_FILE := File ""]> f) s)
    = (Ok (), set_fs (<[SETTINGS_FILE := File (Json.dumps (settings s))]> f) s))
    as Hw.
  { intros f. unfold write. cbn [fs set_fs]. rewrite lookup_insert_eq.
    by rewrite insert_insert_eq. }
  destruct (fs s !! SETTINGS_FILE) as [[|old]|]; [done|..]; apply Hw.
Qed.

Lemma save_refused s :
  fs s !! SETTINGS_FILE = Some Dir →
  save s = (Raise (OSError SETTINGS_FILE), s).
Proof. intros H. unfold save, mbind, M_bind, open_w. by rewrite H. Qed.

(** [load] on a settings file replaces the settings by what the document
    holds. *)
Lemma load_file s text d :
  fs s !! SETTINGS_FILE = Some (File text) →
  Json.loads text = Some d →
  load s = (Ok (), set_settings d s).
Proof.
  intros Hf Hd. unfold load, mbind, M_bind, os_path_exists, gets, read.
  unfold exists_in. repeat (rewrite Hf; cbn beta iota). by rewrite Hd.
Qed.

Lemma load_bad_document s text :
  fs s !! SETTINGS_FILE = Some (File text) →
  Json.loads text = None →
  load s = (Raise ValueError, s).
Proof.
  intros Hf Hd. unfold load, mbind, M_bind, os_path_exists, gets, read.
  unfold exists_in. repeat (rewrite Hf; cbn beta iota). by rewrite Hd.
Qed.

Lemma load_directory s :
  fs s !! SETTINGS_FILE = Some Dir →
  load s = (Raise (OSError SETTINGS_FILE), s).
Proof.
  intros Hf. unfold load, mbind, M_bind, os_path_exists, gets, read.
  unfold exists_in. by repeat (rewrite Hf; cbn beta iota).
Qed.

(** C8: when nothing is at the settings path, [load] is [reset]: from
    every state the two return the same and leave the same state, the
    settings being the defaults. *)
Theorem load_missing_is_reset s :
  fs s !! SETTINGS_FILE = None →
  load s = reset s ∧ settings (load s).2 = defaults.
Proof.
  intros H.
  assert (load s = reset s) as ->; [|done].
  unfold load, mbind, M_bind; simpl.
  unfold exists_in. by rewrite H.
Qed.

Lemma load_missing_is_reset_witness :
  load demo_active = reset demo_active.
Proof. apply (load_missing_is_reset demo_active). reflexivity. Defined.

(** C7: [reset], then [save], then [load] returns, and the settings are
    those [reset] alone leaves, key by key; the settings file holds their
    document.  The settings before do not matter; [save] must be able to
    write, which here means that the settings path is not a directory. *)
Theorem reset_save_load s :
  fs s !! SETTINGS_FILE ≠ Some Dir →
  ∃ s', (reset;; save;; load) s = (Ok (), s') ∧
        settings s' = settings (reset s).2 ∧
        (∀ k, settings s' !! k = defaults !! k) ∧
        fs s' = <[SETTINGS_FILE := File (Json.dumps defaults)]> (fs s) ∧
        _p s' = _p s ∧ procs s' = procs s.
Proof.
  intros Hdir.
  exists (set_fs (<[SETTINGS_FILE := File (Json.dumps defaults)]> (fs s))
            (set_settings defaults s)).
  split; [|done].
  unfold mbind at 1. unfold M_bind at 1. unfold reset at 1, modify.
  unfold mbind at 1. unfold M_bind at 1.
  rewrite save_ok by done. cbn [settings set_settings fs].
  rewrite (load_file _ (Json.dumps defaults) defaults).
  - done.
  - cbn [fs set_fs]. apply lookup_insert_eq.
  - apply loads_dumps_defaults.
Qed.

Lemma reset_save_load_witness :
  ∃ s', (reset;; save;; load) demo_active = (Ok (), s') ∧
        settings s' = defaults.
Proof.
  destruct (reset_save_load demo_active) as (s' & H & Hs & _).
  - discriminate.
  - exists s'. split; [exact H|exact Hs].
Defined.

End store_claims.

(** * More on the process controller *)

Section start_more.
Import Py Xqemu.

Ltac in_list := apply list_elem_of_In; cbn; tauto.

(** A plan that succeeds has found the four required paths to be files,
    and the disc too when it is present. *)
Lemma plan_ok_inv d f args :
  plan d f = Ok args →
  ∃ x m fl h sa dp,
    validated d f x m fl h ∧
    d !! "short_anim" = Some sa ∧ d !! "dvd_present" = Some dp ∧
    ((truthy dp = false ∧
      args = split (cmd (VStr x) (VStr m) (VStr fl) (VStr h)
                      (if truthy sa then ",short_animation" else "") ""))
     ∨
     (truthy dp = true ∧
      ∃ dvd, d !! "dvd_path" = Some (VStr dvd) ∧ is_file f dvd = true ∧
        args = split (cmd (VStr x) (VStr m) (VStr fl) (VStr h)
                        (if truthy sa then ",short_animation" else "")
                        (",file=" +:+ dvd)))).
Proof.
  unfold plan, item.
  assert (∀ v, checked f v = Ok () → ∃ p, v = VStr p ∧ is_file f p = true)
    as Hc.
  { intros [p|b]; simpl; [|done]. destruct (is_file f p) eqn:Hf; [|done].
    intros _. by exists p. }
  destruct (d !! "xqemu_path") as [v1|] eqn:H1; simpl; [|done].
  destruct (checked f v1) as [[]|] eqn:C1; simpl; [|done].
  destruct (d !! "mcpx_path") as [v2|] eqn:H2; simpl; [|done].
  destruct (checked f v2) as [[]|] eqn:C2; simpl; [|done].
  destruct (d !! "flash_path") as [v3|] eqn:H3; simpl; [|done].
  destruct (checked f v3) as [[]|] eqn:C3; simpl; [|done].
  destruct (d !! "hdd_path") as [v4|] eqn:H4; simpl; [|done].
  destruct (checked f v4) as [[]|] eqn:C4; simpl; [|done].
  destruct (d !! "short_anim") as [sa|] eqn:H5; simpl; [|done].
  destruct (d !! "dvd_present") as [dp|] eqn:H6; simpl; [|done].
  apply Hc in C1 as (x & -> & Fx). apply Hc in C2 as (m & -> & Fm).
  apply Hc in C3 as (fl & -> & Ff). apply Hc in C4 as (h & -> & Fh).
  destruct (truthy dp) eqn:Tdp.
  - destruct (d !! "dvd_path") as [v7|] eqn:H7; simpl; [|done].
    destruct (checked f v7) as [[]|] eqn:C7; simpl; [|done].
    apply Hc in C7 as (dvd & -> & Fd). intros [= <-].
    exists x, m, fl, h, sa, dp. split; [by repeat split|].
    split; [done|]. split; [done|]. right. split; [done|]. by exists dvd.
  - intros [= <-].
    exists x, m, fl, h, sa, dp. split; [by repeat split|].
    split; [done|]. split; [done|]. left. by split.
Qed.

(** An error of the plan is a key that is not there, a boolean where a
    path should be, or a path that is not a file. *)
Lemma plan_raise_inv d f e :
  plan d f = Raise e →
  (∃ k, e = KeyError k ∧ d !! k = None ∧
        k ∈ required ++ ["short_anim"; "dvd_present"; "dvd_path"]) ∨
  (e = TypeError ∧ ∃ k b, d !! k = Some (VBool b) ∧
        k ∈ required ++ ["dvd_path"]) ∨
  (∃ k p, e = missing_path p ∧ d !! k = Some (VStr p) ∧
        is_file f p = false ∧ k ∈ required ++ ["dvd_path"]).
Proof.
  unfold plan, item.
  assert (∀ k v a, d !! k = Some v → k ∈ required ++ ["dvd_path"] →
     checked f v = Raise a →
     (a = TypeError ∧ ∃ k b, d !! k = Some (VBool b) ∧
        k ∈ required ++ ["dvd_path"]) ∨
     (∃ k p, a = missing_path p ∧ d !! k = Some (VStr p) ∧
        is_file f p = false ∧ k ∈ required ++ ["dvd_path"])) as Hc.
  { intros k [p|b] a Hk Hin; simpl.
    - destruct (is_file f p) eqn:Hf; [done|]. intros [= <-].
      right. by exists k, p.
    - intros [= <-]. left. split; [done|]. by exists k, b. }
  destruct (d !! "xqemu_path") as [v1|] eqn:H1; simpl;
    [|intros [= <-]; left; eexists; repeat split; [done|in_list]].
  destruct (checked f v1) as [[]|] eqn:C1; simpl;
    [|intros [= <-]; right; eapply Hc; [done|in_list|done]].
  destruct (d !! "mcpx_path") as [v2|] eqn:H2; simpl;
    [|intros [= <-]; left; eexists; repeat split; [done|in_list]].
  destruct (checked f v2) as [[]|] eqn:C2; simpl;
    [|intros [= <-]; right; eapply Hc; [done|in_list|done]].
  destruct (d !! "flash_path") as [v3|] eqn:H3; simpl;
    [|intros [= <-]; left; eexists; repeat split; [done|in_list]].
  destruct (checked f v3) as [[]|] eqn:C3; simpl;
    [|intros [= <-]; right; eapply Hc; [done|in_list|done]].
  destruct (d !! "hdd_path") as [v4|] eqn:H4; simpl;
    [|intros [= <-]; left; eexists; repeat split; [done|in_list]].
  destruct (checked f v4) as [[]|] eqn:C4; simpl;
    [|intros [= <-]; right; eapply Hc; [done|in_list|done]].
  destruct (d !! "short_anim") as [sa|] eqn:H5; simpl;
    [|intros [= <-]; left; eexists; repeat split; [done|in_list]].
  destruct (d !! "dvd_present") as [dp|] eqn:H6; simpl;
    [|intros [= <-]; left; eexists; repeat split; [done|in_list]].
  destruct (truthy dp); [|done].
  destruct (d !! "dvd_path") as [v7|] eqn:H7; simpl;
    [|intros [= <-]; left; eexists; repeat split; [done|in_list]].
  destruct (checked f v7) as [[]|] eqn:C7; simpl;
    [|intros [= <-]; right; eapply Hc; [done|in_list|done]].
  destruct v7 as [p|b]; [done|]. intros [= <-].
  right. left. split; [done|]. exists "dvd_path", b. split; [done|in_list].
Qed.

(** What [start] can raise. *)
Lemma start_raise_cases d s e s' :
  start d s = (Raise e, s') →
  (∃ k, e = KeyError k ∧ d !! k = None ∧
        k ∈ required ++ ["short_anim"; "dvd_present"; "dvd_path"]) ∨
  (e = TypeError ∧ ∃ k b, d !! k = Some (VBool b) ∧
        k ∈ required ++ ["dvd_path"]) ∨
  (∃ k p, e = missing_path p ∧ d !! k = Some (VStr p) ∧
        is_file (fs s) p = false ∧ k ∈ required ++ ["dvd_path"]) ∨
  (∃ args, e = OSError (default "" (head args)) ∧
        plan d (fs s) = Ok args ∧ launchable s args = false).
Proof.
  intros H. rewrite start_plan in H.
  destruct (plan d (fs s)) as [args|a] eqn:Hp.
  - destruct (launchable s args) eqn:Hl.
    + by rewrite launch_ok in H.
    + rewrite launch_refused in H by done. injection H as <- _.
      do 3 right. by exists args.
  - injection H as <- _.
    destruct (plan_raise_inv _ _ _ Hp) as [?|[?|?]]; tauto.
Qed.

Ltac text_paths :=
  let k := fresh "k" in let b := fresh "b" in
  let Hk := fresh "Hk" in let H := fresh "H" in
  intros k b Hk H; apply list_elem_of_In in Hk; cbn in Hk;
  repeat (destruct Hk as [<-|Hk]; [vm_compute in H; discriminate|]);
  done.

(** X1: on settings whose paths are text, a [start] that raises has
    changed nothing: no process was spawned and the handle, the settings
    and the filesystem are as they were.  The error is a [KeyError] for a
    key that [start] reads and the settings lack, the missing-path error
    of a path that is not a file, or the refusal of the OS to launch. *)
Theorem start_failure_changes_nothing d s e s' :
  paths_are_text d →
  start d s = (Raise e, s') →
  s' = s ∧
  ((∃ k, e = KeyError k ∧ d !! k = None ∧
         k ∈ required ++ ["short_anim"; "dvd_present"; "dvd_path"]) ∨
   (∃ k p, e = missing_path p ∧ d !! k = Some (VStr p) ∧
         is_file (fs s) p = false ∧ k ∈ required ++ ["dvd_path"]) ∨
   (∃ args, e = OSError (default "" (head args)) ∧
         plan d (fs s) = Ok args ∧ launchable s args = false)).
Proof.
  intros Htext H. split; [by eapply start_raise_inv|].
  apply start_raise_cases in H as [H|[(_ & k & b & Hd & Hk)|[H|H]]].
  - by left.
  - by destruct (Htext k b Hk).
  - right. by left.
  - right. by right.
Qed.

Lemma start_failure_changes_nothing_witness :
  (start (delete "mcpx_path" demo_settings) demo_active).2 = demo_active.
Proof.
  apply (start_failure_changes_nothing (delete "mcpx_path" demo_settings)
           demo_active (KeyError "mcpx_path")).
  - text_paths.
  - vm_compute. reflexivity.
Defined.

(** X2: on settings whose paths are text, a [start] that returns has
    found every path it uses to be a file: the four required ones, and
    the disc when it is present.  It has spawned one process, on the
    words of the command string, which are non-empty and free of
    whitespace; it retains the handle of that process, and the settings,
    the filesystem and the processes spawned before are as they were. *)
Theorem start_success_effect d s s' :
  paths_are_text d →
  start d s = (Ok (), s') →
  ∃ x m fl h sa dp dv,
    validated d (fs s) x m fl h ∧
    d !! "short_anim" = Some sa ∧ d !! "dvd_present" = Some dp ∧
    (if truthy dp
     then ∃ dvd, d !! "dvd_path" = Some (VStr dvd) ∧
                 is_file (fs s) dvd = true ∧ dv = ",file=" +:+ dvd
     else dv = "") ∧
    let args := split (cmd (VStr x) (VStr m) (VStr fl) (VStr h)
                  (if truthy sa then ",short_animation" else "") dv) in
    s' = spawned args s ∧
    launchable s args = true ∧
    Forall (λ w, w ≠ "" ∧ nospace w = true) args ∧
    procs s' = procs s ++ [Process args false] ∧
    _p s' = Some (length (procs s)) ∧
    fs s' = fs s ∧ settings s' = settings s.
Proof.
  intros _ H. apply start_ok_inv in H as (args & Hp & Hl & ->).
  apply plan_ok_inv in Hp
    as (x & m & fl & h & sa & dp & Hv & Hsa & Hdp & Hargs).
  destruct Hargs as [[Tdp ->]|[Tdp (dvd & Hdvd & Fdvd & ->)]].
  - exists x, m, fl, h, sa, dp, "". rewrite Tdp.
    split_and!; try done. cbv zeta. split_and!; try done.
    apply split_words.
  - exists x, m, fl, h, sa, dp, (",file=" +:+ dvd). rewrite Tdp.
    split_and!; try done; [by exists dvd|].
    cbv zeta. split_and!; try done. apply split_words.
Qed.

Lemma start_success_effect_witness :
  ∃ args, procs (start demo_settings demo_active).2
          = procs demo_active ++ [Process args false].
Proof.
  destruct (start_success_effect demo_settings demo_active
              (start demo_settings demo_active).2)
    as (x & m & fl & h & sa & dp & dv & _ & _ & _ & _ & H).
  - text_paths.
  - vm_compute. reflexivity.
  - destruct H as (_ & _ & _ & H & _). eexists. exact H.
Defined.

(** X3: the paths are checked in the order emulator, boot ROM, BIOS,
    hard disk, and the first that is not a file is the one the error
    names, whatever the settings hold for the keys read after it. *)
Theorem start_reports_first_bad_path d s i k p :
  required !! i = Some k →
  (∀ j k', j < i → required !! j = Some k' →
           ∃ q, d !! k' = Some (VStr q) ∧ is_file (fs s) q = true) →
  d !! k = Some (VStr p) → is_file (fs s) p = false →
  start d s = (Raise (missing_path p), s).
Proof.
  intros Hi Hbefore Hk Hp. rewrite start_plan.
  assert (plan d (fs s) = Raise (missing_path p)) as ->; [|done].
  unfold plan, item.
  destruct i as [|[|[|[|i]]]]; try done; injection Hi as <-.
  - rewrite Hk; simpl. by rewrite Hp.
  - destruct (Hbefore 0 "xqemu_path") as (q0 & E0 & F0); [lia|done|].
    rewrite E0; simpl; rewrite F0; simpl.
    rewrite Hk; simpl. by rewrite Hp.
  - destruct (Hbefore 0 "xqemu_path") as (q0 & E0 & F0); [lia|done|].
    rewrite E0; simpl; rewrite F0; simpl.
    destruct (Hbefore 1 "mcpx_path") as (q1 & E1 & F1); [lia|done|].
    rewrite E1; simpl; rewrite F1; simpl.
    rewrite Hk; simpl. by rewrite Hp.
  - destruct (Hbefore 0 "xqemu_path") as (q0 & E0 & F0); [lia|done|].
    rewrite E0; simpl; rewrite F0; simpl.
    destruct (Hbefore 1 "mcpx_path") as (q1 & E1 & F1); [lia|done|].
    rewrite E1; simpl; rewrite F1; simpl.
    destruct (Hbefore 2 "flash_path") as (q2 & E2 & F2); [lia|done|].
    rewrite E2; simpl; rewrite F2; simpl.
    rewrite Hk; simpl. by rewrite Hp.
Qed.

Lemma start_reports_first_bad_path_witness :
  start (<["mcpx_path" := VStr "/img"]> (delete "hdd_path" demo_settings))
        demo_state
  = (Raise (missing_path "/img"), demo_state).
Proof.
  apply (start_reports_first_bad_path _ demo_state 1 "mcpx_path" "/img").
  - reflexivity.
  - intros j k' Hj Hk'. destruct j as [|j]; [|lia].
    injection Hk' as <-. by exists "/opt/xqemu".
  - reflexivity.
  - reflexivity.
Defined.

(** X4: settings that lack one of the six keys [start] always reads
    cannot launch: [start] raises and nothing is spawned, whatever the
    filesystem holds.  When the emulator path is the key that is not
    there, the error is its [KeyError]. *)
Theorem start_needs_its_keys d s k :
  k ∈ required ++ ["short_anim"; "dvd_present"] → d !! k = None →
  (∃ e, start d s = (Raise e, s)) ∧
  (k = "xqemu_path" → start d s = (Raise (KeyError "xqemu_path"), s)).
Proof.
  intros Hk Hd. split.
  - destruct (start d s) as [[[]|e] s'] eqn:Hs.
    + apply start_ok_inv in Hs as (args & Hp & _ & _).
      apply plan_ok_inv in Hp
        as (x & m & fl & h & sa & dp & Hv & Hsa & Hdp & _).
      destruct Hv as (Hx & _ & Hm & _ & Hf & _ & Hh & _).
      apply list_elem_of_In in Hk. cbn in Hk.
      destruct Hk as [<-|[<-|[<-|[<-|[<-|[<-|[]]]]]]]; congruence.
    + exists e. by rewrite (start_raise_inv _ _ _ _ Hs).
  - intros ->. rewrite start_plan. unfold plan, item. by rewrite Hd.
Qed.

Lemma start_needs_its_keys_witness :
  ∃ e, start (delete "dvd_present" demo_settings) demo_state
       = (Raise e, demo_state).
Proof.
  apply (start_needs_its_keys _ demo_state "dvd_present").
  - in_list.
  - reflexivity.
Defined.

(** X5: with the optical disc present and all five paths files, [start]
    spawns the words of the command string with [,file=] and the disc
    path after [media=cdrom]; the short-animation suffix is there exactly
    when [short_anim] is true.  For whitespace-free paths the vector is
    the intended one, whose last argument names the disc. *)
Theorem start_with_disc d s x m fl h sa dp dvd :
  validated d (fs s) x m fl h →
  d !! "short_anim" = Some sa →
  d !! "dvd_present" = Some dp → truthy dp = true →
  d !! "dvd_path" = Some (VStr dvd) → is_file (fs s) dvd = true →
  let short := if truthy sa then ",short_animation" else "" in
  let args :=
    split (cmd (VStr x) (VStr m) (VStr fl) (VStr h) short
             (",file=" +:+ dvd)) in
  start d s = launch args s ∧
  (x ≠ "" → fl ≠ "" →
   nospace x = true → nospace m = true → nospace fl = true →
   nospace h = true → nospace dvd = true →
   args = intended_argv x m fl h short (",file=" +:+ dvd) ∧
   last args = Some ("index=1,media=cdrom,file=" +:+ dvd)).
Proof.
  intros Hv Hsa Hdp Tdp Hdvd Fdvd short args. split.
  - rewrite start_plan, (plan_validated _ _ _ _ _ _ _ _ Hv Hsa Hdp).
    rewrite Tdp. unfold item. rewrite Hdvd. simpl. by rewrite Fdvd.
  - intros Hx Hfl Nx Nm Nfl Nh Ndvd.
    assert (args = intended_argv x m fl h short (",file=" +:+ dvd)) as ->.
    { apply split_cmd_intended. split_and!; try done.
      all: try (subst short; by destruct (truthy sa)).
      all: by rewrite nospace_app, Ndvd. }
    done.
Qed.

Lemma start_with_disc_witness :
  start (<["dvd_present" := VBool true]>
           (<["dvd_path" := VStr "/img/hdd.img"]> demo_settings)) demo_state
  = launch (intended_argv "/opt/xqemu" "/rom/mcpx.bin" "/rom/flash.bin"
              "/img/hdd.img" ",short_animation" ",file=/img/hdd.img")
      demo_state.
Proof.
  destruct (start_with_disc
              (<["dvd_present" := VBool true]>
                 (<["dvd_path" := VStr "/img/hdd.img"]> demo_settings))
              demo_state "/opt/xqemu" "/rom/mcpx.bin" "/rom/flash.bin"
              "/img/hdd.img" (VBool true) (VBool true) "/img/hdd.img")
    as [H1 H2].
  - by repeat split.
  - reflexivity.
  - reflexivity.
  - reflexivity.
  - reflexivity.
  - reflexivity.
  - specialize (H2 ltac:(done) ltac:(done)
                  eq_refl eq_refl eq_refl eq_refl eq_refl) as [H2 _].
    rewrite H1. by rewrite H2.
Defined.

(** X6: [stop] never raises and retains nothing afterwards, so a second
    [stop] changes nothing.  It marks the retained process, if there is
    one, and leaves every other process, the arguments of all of them,
    the settings and the filesystem as they were. *)
Theorem stop_effect s :
  (stop s).1 = Ok () ∧
  _p (stop s).2 = None ∧
  stop (stop s).2 = (Ok (), (stop s).2) ∧
  (∀ h c, _p s = Some h → procs s !! h = Some c →
          procs (stop s).2 !! h = Some (Process (argv c) true)) ∧
  (∀ i, _p s ≠ Some i → procs (stop s).2 !! i = procs s !! i) ∧
  argv <$> procs (stop s).2 = argv <$> procs s ∧
  settings (stop s).2 = settings s ∧ fs (stop s).2 = fs s.
Proof.
  destruct (_p s) as [h|] eqn:Hp.
  - rewrite (stop_retained s h Hp). simpl. split_and!; try done.
    + intros h' c [= <-] Hc. by rewrite list_lookup_alter_eq, Hc.
    + intros i Hi. apply list_lookup_alter_ne. congruence.
    + apply list_eq. intros i. rewrite !list_lookup_fmap.
      destruct (decide (i = h)) as [->|Hne].
      * rewrite list_lookup_alter_eq. by destruct (procs s !! h).
      * by rewrite list_lookup_alter_ne.
  - rewrite (stop_idle s Hp). simpl. split_and!; try done.
    by apply stop_idle.
Qed.

(** On well-typed settings no key is missing and no path is a boolean. *)
Lemma well_typed_lookup d k :
  well_typed d → k ∈ text_keys → ∃ t, d !! k = Some (VStr t).
Proof. intros [H _]. apply H. Qed.

(** X7: on settings where every text key holds a string and every flag
    key a boolean, [start] returns or else raises the missing-path error
    of one of its paths or the refusal of the OS: it raises no
    [KeyError] and no [TypeError]. *)
Theorem start_well_typed d s e s' :
  well_typed d →
  start d s = (Raise e, s') →
  (∃ k p, k ∈ text_keys ∧ d !! k = Some (VStr p) ∧
          is_file (fs s) p = false ∧ e = missing_path p) ∨
  (∃ args, e = OSError (default "" (head args)) ∧
           launchable s args = false).
Proof.
  intros [Ht Hf] Hs.
  assert (∀ k, k ∈ required ++ ["short_anim"; "dvd_present"; "dvd_path"] →
               d !! k ≠ None) as Hsome.
  { intros k Hk.
    assert (k ∈ text_keys ∨ k ∈ flag_keys) as [H|H].
    { apply list_elem_of_In in Hk. cbn in Hk.
      destruct Hk as [<-|[<-|[<-|[<-|[<-|[<-|[<-|[]]]]]]]];
        ((left; in_list) || (right; in_list)). }
    - by destruct (Ht k H) as [t ->].
    - by destruct (Hf k H) as [b ->]. }
  assert (∀ k, k ∈ required ++ ["dvd_path"] → k ∈ text_keys) as Hin.
  { intros k Hk. apply list_elem_of_In in Hk. cbn in Hk.
    destruct Hk as [<-|[<-|[<-|[<-|[<-|[]]]]]]; in_list. }
  assert (∀ k b, k ∈ required ++ ["dvd_path"] → d !! k ≠ Some (VBool b))
    as Hstr.
  { intros k b Hk. by destruct (Ht k (Hin k Hk)) as [t ->]. }
  apply start_raise_cases in Hs.
  destruct Hs as [(k & -> & Hd & Hk)|[(-> & k & b & Hd & Hk)|
                  [(k & p & -> & Hd & Hp & Hk)|(args & -> & _ & Hl)]]].
  - by destruct (Hsome k Hk).
  - by destruct (Hstr k b Hk).
  - left. exists k, p. split_and!; done || by apply Hin.
  - right. by exists args.
Qed.

Lemma start_well_typed_witness :
  (∃ k p, k ∈ text_keys ∧ SettingsManager.defaults !! k = Some (VStr p) ∧
          is_file (fs demo_state) p = false ∧
          Exception "File /path/to/xqemu could not be found!"
            = missing_path p) ∨
  (∃ args, Exception "File /path/to/xqemu could not be found!"
             = OSError (default "" (head args)) ∧
           launchable demo_state args = false).
Proof.
  apply (start_well_typed SettingsManager.defaults demo_state _ demo_state).
  - split; intros k Hk; apply list_elem_of_In in Hk; cbn in Hk.
    + destruct Hk as [<-|[<-|[<-|[<-|[<-|[]]]]]]; by eexists.
    + destruct Hk as [<-|[<-|[<-|[]]]]; by eexists.
  - vm_compute. reflexivity.
Defined.

End start_more.

(** * The settings form *)

Section settings_window.
Import SettingsWindow.

Ltac in_list := apply list_elem_of_In; cbn; tauto.

Lemma text_var_in w : text_var w ∈ text_keys.
Proof. destruct w; in_list. Qed.

Lemma check_var_in w : check_var w ∈ flag_keys.
Proof. destruct w; in_list. Qed.

Lemma text_key_var k : k ∈ text_keys → ∃ w, k = text_var w.
Proof.
  intros Hk. apply list_elem_of_In in Hk. cbn in Hk.
  destruct Hk as [<-|[<-|[<-|[<-|[<-|[]]]]]];
    [by exists xqemuPath|by exists mcpxPath|by exists flashPath
    |by exists hddPath|by exists dvdPath].
Qed.

Lemma flag_key_var k : k ∈ flag_keys → ∃ w, k = check_var w.
Proof.
  intros Hk. apply list_elem_of_In in Hk. cbn in Hk.
  destruct Hk as [<-|[<-|[<-|[]]]];
    [by exists hddLocked|by exists dvdPresent|by exists useShortBootAnim].
Qed.

Lemma mirrors_well_typed f d : mirrors f d → well_typed d.
Proof.
  intros [Ht Hc]. split; intros k Hk.
  - apply text_key_var in Hk as [w ->]. by eexists.
  - apply flag_key_var in Hk as [w ->]. by eexists.
Qed.

Lemma getTextAttr_ok w f s t :
  settings s !! text_var w = Some (VStr t) →
  getTextAttr w f s = (Ok (setText w t f), s).
Proof.
  intros H. unfold getTextAttr, mbind, M_bind, gets, getitem. by rewrite H.
Qed.

Lemma getCheckAttr_ok w f s b :
  settings s !! check_var w = Some (VBool b) →
  getCheckAttr w f s = (Ok (setChecked w b f), s).
Proof.
  intros H. unfold getCheckAttr, mbind, M_bind, gets, getitem. by rewrite H.
Qed.

Lemma getTextAttr_inv w f s f' s' :
  getTextAttr w f s = (Ok f', s') →
  s' = s ∧ ∃ t, settings s !! text_var w = Some (VStr t).
Proof.
  unfold getTextAttr, mbind, M_bind, gets, getitem.
  destruct (settings s !! text_var w) as [[t|b]|]; [|done..].
  intros [= _ <-]. split; [done|]. by exists t.
Qed.

Lemma getCheckAttr_inv w f s f' s' :
  getCheckAttr w f s = (Ok f', s') →
  s' = s ∧ ∃ b, settings s !! check_var w = Some (VBool b).
Proof.
  unfold getCheckAttr, mbind, M_bind, gets, getitem.
  destruct (settings s !! check_var w) as [[t|b]|]; [done| |done].
  intros [= _ <-]. split; [done|]. by exists b.
Qed.

Lemma getTextAttr_state w f s : (getTextAttr w f s).2 = s.
Proof.
  unfold getTextAttr, mbind, M_bind, gets, getitem.
  by destruct (settings s !! text_var w) as [[t|b]|].
Qed.

Lemma getCheckAttr_state w f s : (getCheckAttr w f s).2 = s.
Proof.
  unfold getCheckAttr, mbind, M_bind, gets, getitem.
  by destruct (settings s !! check_var w) as [[t|b]|].
Qed.

(** [__init__] reads and shows; it writes nothing. *)
Lemma init_state ui s : (__init__ ui s).2 = s.
Proof.
  unfold __init__.
  repeat match goal with
  | |- ((?m ≫= ?k) ?s).2 = _ =>
      let H := fresh in
      unfold mbind at 1; unfold M_bind at 1;
      first [ pose proof (getTextAttr_state _ _ s : (m s).2 = s) as H
            | pose proof (getCheckAttr_state _ _ s : (m s).2 = s) as H ];
      destruct (m s) as [[?|?] ?]; simpl in H; subst; [|done]
  end.
  apply getCheckAttr_state.
Qed.

(** On well-typed settings [__init__] returns and the form shows them. *)
Lemma init_well_typed ui s :
  well_typed (settings s) →
  ∃ f, __init__ ui s = (Ok f, s) ∧ mirrors f (settings s).
Proof.
  intros [Ht Hc].
  destruct (Ht _ (text_var_in xqemuPath)) as [t1 H1].
  destruct (Hc _ (check_var_in useShortBootAnim)) as [b2 H2].
  destruct (Hc _ (check_var_in dvdPresent)) as [b3 H3].
  destruct (Ht _ (text_var_in dvdPath)) as [t4 H4].
  destruct (Ht _ (text_var_in mcpxPath)) as [t5 H5].
  destruct (Ht _ (text_var_in flashPath)) as [t6 H6].
  destruct (Ht _ (text_var_in hddPath)) as [t7 H7].
  destruct (Hc _ (check_var_in hddLocked)) as [b8 H8].
  eexists. split.
  - unfold __init__.
    rewrite (bind_ok _ _ _ _ _ (getTextAttr_ok xqemuPath _ s t1 H1)).
    rewrite (bind_ok _ _ _ _ _ (getCheckAttr_ok useShortBootAnim _ s b2 H2)).
    rewrite (bind_ok _ _ _ _ _ (getCheckAttr_ok dvdPresent _ s b3 H3)).
    rewrite (bind_ok _ _ _ _ _ (getTextAttr_ok dvdPath _ s t4 H4)).
    rewrite (bind_ok _ _ _ _ _ (getTextAttr_ok mcpxPath _ s t5 H5)).
    rewrite (bind_ok _ _ _ _ _ (getTextAttr_ok flashPath _ s t6 H6)).
    rewrite (bind_ok _ _ _ _ _ (getTextAttr_ok hddPath _ s t7 H7)).
    apply (getCheckAttr_ok hddLocked _ s b8 H8).
  - split; intros w; destruct w; simpl; assumption.
Qed.

(** X8: the settings dialog opens exactly on well-typed settings: when
    every text key holds a string and every flag key a boolean,
    [__init__] returns, the settings and everything else are as they
    were, and each widget shows its setting; on any other settings it
    raises. *)
Theorem settings_dialog_opens ui s :
  (well_typed (settings s) →
   ∃ f, __init__ ui s = (Ok f, s) ∧ mirrors f (settings s)) ∧
  (∀ f s', __init__ ui s = (Ok f, s') → well_typed (settings s)) ∧
  (__init__ ui s).2 = s.
Proof.
  split; [|split; [|apply init_state]].
  - apply init_well_typed.
  - intros f s'. unfold __init__.
    repeat match goal with
    | |- (?m ≫= ?k) ?s = _ → _ =>
        let H := fresh "G" in
        unfold mbind at 1; unfold M_bind at 1;
        destruct (m s) as [[?|?] ?] eqn:H; [|done];
        first [ apply getTextAttr_inv in H as [-> [? ?]]
              | apply getCheckAttr_inv in H as [-> [? ?]] ]
    end.
    intros [_ [b8 H8]]%getCheckAttr_inv.
    split; intros k Hk.
    + apply text_key_var in Hk as [w ->]. destruct w; by eexists.
    + apply flag_key_var in Hk as [w ->]. destruct w; by eexists.
Qed.

Lemma settings_dialog_opens_witness :
  ∃ f, __init__ blank_form demo_state = (Ok f, demo_state) ∧
       mirrors f (settings demo_state).
Proof.
  apply (settings_dialog_opens blank_form demo_state).
  split; intros k Hk; apply list_elem_of_In in Hk; cbn in Hk.
  - destruct Hk as [<-|[<-|[<-|[<-|[<-|[]]]]]]; by eexists.
  - destruct Hk as [<-|[<-|[<-|[]]]]; by eexists.
Defined.

Lemma text_var_inj w w' : text_var w = text_var w' → w = w'.
Proof. by destruct w, w'. Qed.

Lemma check_var_inj w w' : check_var w = check_var w' → w = w'.
Proof. by destruct w, w'. Qed.

Lemma text_var_check_var w w' : text_var w ≠ check_var w'.
Proof. by destruct w, w'. Qed.

Lemma text_key_not_flag k : k ∈ text_keys → k ∉ flag_keys.
Proof.
  intros [w ->]%text_key_var [w' H]%flag_key_var.
  by apply text_var_check_var in H.
Qed.

Lemma mirrors_setText f d w t :
  mirrors f d → mirrors (setText w t f) (<[text_var w := VStr t]> d).
Proof.
  intros [Ht Hc]. split.
  - intros w'. simpl. destruct (decide (w' = w)) as [->|Hne].
    + apply lookup_insert_eq.
    + rewrite lookup_insert_ne; [done|]. intros E. by apply text_var_inj in E.
  - intros w'. simpl. rewrite lookup_insert_ne; [done|].
    apply text_var_check_var.
Qed.

Lemma mirrors_setChecked f d w b :
  mirrors f d → mirrors (setChecked w b f) (<[check_var w := VBool b]> d).
Proof.
  intros [Ht Hc]. split.
  - intros w'. simpl. rewrite lookup_insert_ne; [done|].
    intros E. symmetry in E. by apply text_var_check_var in E.
  - intros w'. simpl. destruct (decide (w' = w)) as [->|Hne].
    + apply lookup_insert_eq.
    + rewrite lookup_insert_ne; [done|]. intros E. by apply check_var_inj in E.
Qed.

(** What one event does to a form that shows the settings. *)
Lemma handle_mirrors e f s :
  mirrors f (settings s) →
  ∃ f' d',
    handle e f s = (Ok f', set_settings d' s) ∧ mirrors f' d' ∧
    (∀ k, k ∉ text_keys → k ∉ flag_keys → d' !! k = settings s !! k) ∧
    match e with
    | Typed w t => d' = <[text_var w := VStr t]> (settings s)
    | Clicked w =>
        d' = <[check_var w := VBool (negb (isChecked f w))]> (settings s)
    | Picked w EmptyString => d' = settings s ∧ f' = f
    | Picked w fileName => d' = <[text_var w := VStr fileName]> (settings s)
    end.
Proof.
  intros Hm.
  assert (set_settings (settings s) s = s) as Hs by (by destruct s).
  assert (∀ w t, ∃ f' d',
    textChanged w t f s = (Ok f', set_settings d' s) ∧ mirrors f' d' ∧
    (∀ k, k ∉ text_keys → k ∉ flag_keys → d' !! k = settings s !! k) ∧
    d' = <[text_var w := VStr t]> (settings s)) as Htext.
  { intros w t. unfold textChanged.
    destruct (decide (t = text f w)) as [->|Hne].
    - exists f, (settings s). rewrite Hs. split_and!; try done.
      symmetry. apply insert_id. apply Hm.
    - eexists _, _. split; [reflexivity|]. simpl.
      rewrite decide_True by done.
      split_and!; [by apply mirrors_setText| |done].
      intros k Hk _. apply lookup_insert_ne. intros <-.
      apply Hk, text_var_in. }
  destruct e as [w t|w|w [|c fn]]; simpl.
  - apply Htext.
  - eexists _, _. unfold stateChanged. split; [reflexivity|]. simpl.
    rewrite decide_True by done.
    split_and!; [by apply mirrors_setChecked| |done].
    intros k _ Hk. apply lookup_insert_ne. intros <-.
    apply Hk, check_var_in.
  - exists f, (settings s). by rewrite Hs.
  - apply Htext.
Qed.

(** X9: while the dialog is open the form and the settings stay in step.
    Whatever the user does, no handler raises, every widget shows its
    setting afterwards, and the settings stay well typed.  Only the
    settings change, and in them only the eight keys the form binds. *)
Theorem settings_dialog_keeps_step events f s :
  mirrors f (settings s) →
  ∃ f' d',
    exec_ events f s = (Ok f', set_settings d' s) ∧
    mirrors f' d' ∧ well_typed d' ∧
    (∀ k, k ∉ text_keys → k ∉ flag_keys → d' !! k = settings s !! k).
Proof.
  revert f s. induction events as [|e events IH]; intros f s Hm.
  - exists f, (settings s). split_and!; try done.
    + by destruct s.
    + by eapply mirrors_well_typed.
  - destruct (handle_mirrors e f s Hm) as (f1 & d1 & He & Hm1 & Hk1 & _).
    destruct (IH f1 (set_settings d1 s) Hm1)
      as (f2 & d2 & Hx & Hm2 & Hw2 & Hk2).
    exists f2, d2. split_and!; try done.
    + simpl. rewrite (bind_ok _ _ _ _ _ He). by rewrite Hx.
    + intros k H1 H2. rewrite Hk2 by done. by apply Hk1.
Qed.

Lemma settings_dialog_keeps_step_witness :
  ∃ f' d',
    exec_ [Typed hddPath "/img/hdd.img"; Clicked dvdPresent; Picked dvdPath ""]
      default_form
      demo_state
    = (Ok f', set_settings d' demo_state) ∧
    mirrors f' d' ∧ well_typed d' ∧
    (∀ k, k ∉ text_keys → k ∉ flag_keys →
          d' !! k = settings demo_state !! k).
Proof.
  apply settings_dialog_keeps_step.
  split; intros w; destruct w; reflexivity.
Defined.

(** X10: what each event stores.  On a form that shows the settings, a
    text typed into a line edit or picked with its button is stored
    under the key of that line edit; a click on a check box stores the
    opposite of what the box showed; a cancelled file picker changes
    neither the settings nor the form. *)
Theorem settings_dialog_event e f s :
  mirrors f (settings s) →
  ∃ f' s',
    handle e f s = (Ok f', s') ∧
    match e with
    | Typed w t => settings s' !! text_var w = Some (VStr t)
    | Clicked w =>
        ∃ b, settings s !! check_var w = Some (VBool b) ∧
             settings s' !! check_var w = Some (VBool (negb b))
    | Picked w EmptyString => s' = s ∧ f' = f
    | Picked w fileName => settings s' !! text_var w = Some (VStr fileName)
    end.
Proof.
  intros Hm. destruct (handle_mirrors e f s Hm) as (f' & d' & He & _ & _ & H).
  exists f', (set_settings d' s). split; [done|].
  destruct e as [w t|w|w [|c fn]]; simpl.
  - rewrite H. apply lookup_insert_eq.
  - exists (isChecked f w). split; [apply Hm|]. rewrite H.
    apply lookup_insert_eq.
  - destruct H as [-> ->]. split; [by destruct s|done].
  - rewrite H. apply lookup_insert_eq.
Qed.

Lemma settings_dialog_event_witness :
  ∃ f' s',
    handle (Picked dvdPath "")
      default_form
      demo_state = (Ok f', s') ∧ s' = demo_state ∧
    f' = default_form.
Proof.
  apply (settings_dialog_event (Picked dvdPath "")).
  split; intros w; destruct w; reflexivity.
Defined.


End settings_window.

(** * The main window *)

Section main_window.
Import SettingsWindow MainWindow.

(** The handlers of the dialog never raise and change only the
    settings. *)
Lemma handle_frame e f s :
  ∃ f' d', handle e f s = (Ok f', set_settings d' s).
Proof.
  assert (set_settings (settings s) s = s) as Hs by (by destruct s).
  assert (∀ w t, ∃ f' d', textChanged w t f s = (Ok f', set_settings d' s))
    as Htext.
  { intros w t. unfold textChanged. destruct (decide (t = text f w)).
    - exists f, (settings s). by rewrite Hs.
    - by eexists _, _. }
  destruct e as [w t|w|w [|c fn]]; simpl.
  - apply Htext.
  - by eexists _, _.
  - exists f, (settings s). by rewrite Hs.
  - apply Htext.
Qed.

Lemma exec_frame events f s :
  ∃ f' d', exec_ events f s = (Ok f', set_settings d' s).
Proof.
  revert f s. induction events as [|e events IH]; intros f s.
  - exists f, (settings s). by destruct s.
  - destruct (handle_frame e f s) as (f1 & d1 & He).
    destruct (IH f1 (set_settings d1 s)) as (f2 & d2 & Hx).
    exists f2, d2. simpl. rewrite (bind_ok _ _ _ _ _ He). by rewrite Hx.
Qed.

Lemma save_frame s : ∃ f', (SettingsManager.save s).2 = set_fs f' s.
Proof.
  destruct (fs s !! SETTINGS_FILE) as [[|old]|] eqn:H.
  - rewrite save_refused by done. exists (fs s). by destruct s.
  - rewrite save_ok by congruence. by eexists.
  - rewrite save_ok by congruence. by eexists.
Qed.

(** A visit to the settings dialog changes the settings and the settings
    file at most. *)
Lemma onSettingsClicked_frame ui events w :
  ∃ d' f',
    (onSettingsClicked ui events w).2
    = Window (set_fs f' (set_settings d' (app w))) (runButton w) (critical w).
Proof.
  unfold onSettingsClicked.
  unfold mbind at 1. unfold M_bind at 1.
  pose proof (init_state ui (app w)) as Hi.
  destruct (SettingsWindow.__init__ ui (app w)) as [[f|e] s1]; simpl in Hi;
    subst s1.
  - unfold mbind at 1. unfold M_bind at 1.
    destruct (exec_frame events f (app w)) as (f1 & d1 & ->).
    destruct (save_frame (set_settings d1 (app w))) as (f' & Hs).
    destruct (SettingsManager.save (set_settings d1 (app w))) as [[[]|e] s2];
      simpl in Hs; subst s2; by exists d1, f'.
  - exists (settings (app w)), (fs (app w)). simpl. by destruct (app w).
Qed.

Lemma perform_tidy a w : tidy w → tidy (perform a w).2.
Proof.
  intros (Hb & Hr & Ht). destruct a as [|ui events]; simpl.
  - unfold onRunButtonClicked, Xqemu.isRunning in *.
    destruct (_p (app w)) as [h|] eqn:Hp; simpl.
    + rewrite (stop_retained (app w) h Hp). simpl.
      split_and!; try done. simpl. intros i c Hi _.
      destruct (decide (i = h)) as [->|Hne].
      * rewrite list_lookup_alter_eq in Hi.
        destruct (procs (app w) !! h); by simplify_eq/=.
      * rewrite list_lookup_alter_ne in Hi by done.
        apply (Ht i c Hi). congruence.
    + destruct (Xqemu.start (settings (app w)) (app w)) as [[[]|e] s'] eqn:Hs.
      * apply start_ok_inv in Hs as (args & _ & _ & ->).
        split_and!; simpl; try done.
        -- intros h [= <-]. exists (Process args false).
           split; [|done]. simpl.
           by rewrite lookup_app_r, Nat.sub_diag by lia.
        -- intros i c Hi Hne. apply lookup_app_Some in Hi as [Hi|[Hge Hi]].
           ++ by apply (Ht i c Hi).
           ++ apply list_lookup_singleton_Some in Hi as [Hi _].
              destruct Hne. f_equal. lia.
      * apply start_raise_inv in Hs as ->.
        unfold tidy, Xqemu.isRunning; simpl. rewrite Hp. by split_and!.
  - destruct (onSettingsClicked_frame ui events w) as (d' & f' & ->).
    by split_and!.
Qed.

(** X11: the main window never loses a process.  From a tidy window, after
    any clicks on the run button and visits to the settings dialog, the
    window is tidy: the button reads [Stop] exactly while a handle is
    retained, that handle is of a process not yet asked to terminate, and
    every other process spawned has been asked to. *)
Theorem main_window_stays_tidy actions w :
  tidy w → tidy (foldl (λ w a, (perform a w).2) w actions).
Proof.
  revert w. induction actions as [|a actions IH]; intros w Hw; [done|].
  simpl. apply IH. by apply perform_tidy.
Qed.

Lemma main_window_stays_tidy_witness :
  tidy (foldl (λ w a, (perform a w).2) launch_window
          [Run; Settings blank_form []; Run; Run]) ∧
  _p (app (foldl (λ w a, (perform a w).2) launch_window
             [Run; Settings blank_form []; Run; Run])) = Some 1 ∧
  terminated <$> procs (app (foldl (λ w a, (perform a w).2) launch_window
                               [Run; Settings blank_form []; Run; Run]))
    = [true; false].
Proof.
  split; [|split; vm_compute; reflexivity].
  apply main_window_stays_tidy. split_and!; [done|done|].
  intros i c Hi. by destruct i.
Defined.



(** X12: a click on the run button always returns.  When the controller
    is idle and [start] raises, one error box is added, for the exception
    raised, and the application state and the button are as they were;
    in every other case no box is added. *)
Theorem run_button_reports_errors w :
  (onRunButtonClicked w).1 = Returned ∧
  (∀ e s', Xqemu.isRunning (app w) = false →
           Xqemu.start (settings (app w)) (app w) = (Raise e, s') →
           onRunButtonClicked w
           = (Returned, Window (app w) (runButton w) (critical w ++ [e]))) ∧
  (critical (onRunButtonClicked w).2 = critical w ∨
   ∃ e, critical (onRunButtonClicked w).2 = critical w ++ [e] ∧
        Xqemu.isRunning (app w) = false ∧
        (Xqemu.start (settings (app w)) (app w)).1 = Raise e).
Proof.
  unfold onRunButtonClicked.
  destruct (Xqemu.isRunning (app w)) eqn:Hr; simpl.
  - destruct (stop_effect (app w)) as (Hok & _).
    destruct (Xqemu.stop (app w)) as [[[]|e] s']; simpl in *; [|done].
    split_and!; [done|done|by left].
  - destruct (Xqemu.start (settings (app w)) (app w)) as [[[]|e] s'] eqn:Hs;
      simpl.
    + split_and!; [done|done|by left].
    + apply start_raise_inv in Hs as ->.
      split_and!; [done| |right; by exists e].
      by intros e' s'' _ [= -> _].
Qed.

(** X13: the exit handler ends the program with code 0 after asking the
    retained process to terminate.  From a tidy window, no process
    spawned through the controller is left that has not been asked to
    terminate, and no handle is retained. *)
Theorem exit_stops_the_emulator w :
  tidy w →
  (onExitClicked w).1 = Exited 0 ∧
  _p (app (onExitClicked w).2) = None ∧
  (∀ i c, procs (app (onExitClicked w).2) !! i = Some c →
          terminated c = true) ∧
  length (procs (app (onExitClicked w).2)) = length (procs (app w)).
Proof.
  intros (_ & Hr & Ht). unfold onExitClicked.
  destruct (_p (app w)) as [h|] eqn:Hp.
  - rewrite (stop_retained (app w) h Hp). simpl.
    split_and!; try done.
    + intros i c Hi. destruct (decide (i = h)) as [->|Hne].
      * rewrite list_lookup_alter_eq in Hi.
        destruct (procs (app w) !! h); by simplify_eq/=.
      * rewrite list_lookup_alter_ne in Hi by done.
        apply (Ht i c Hi). congruence.
    + apply length_alter.
  - rewrite (stop_idle (app w) Hp). simpl.
    split_and!; try done. intros i c Hi. by apply (Ht i c Hi).
Qed.

Lemma exit_stops_the_emulator_witness :
  (onExitClicked (onRunButtonClicked launch_window).2).1 = Exited 0 ∧
  _p (app (onExitClicked (onRunButtonClicked launch_window).2).2) = None ∧
  _p (app (onRunButtonClicked launch_window).2) = Some 0 ∧
  terminated <$> procs (app (onRunButtonClicked launch_window).2) = [false] ∧
  terminated
    <$> procs (app (onExitClicked (onRunButtonClicked launch_window).2).2)
    = [true].
Proof.
  destruct (exit_stops_the_emulator (onRunButtonClicked launch_window).2)
    as (H1 & H2 & _).
  - apply (perform_tidy Run launch_window). split_and!; [done|done|].
    intros i c Hi. by destruct i.
  - split; [exact H1|]. split; [exact H2|].
    split_and!; vm_compute; reflexivity.
Defined.

Lemma load_absent s :
  fs s !! SETTINGS_FILE = None → SettingsManager.load s = SettingsManager.reset s.
Proof.
  intros H. unfold SettingsManager.load, mbind, M_bind; simpl.
  unfold exists_in. by rewrite H.
Qed.

(** [load] changes the settings at most. *)
Lemma load_frame s : ∃ d, (SettingsManager.load s).2 = set_settings d s.
Proof.
  destruct (fs s !! SETTINGS_FILE) as [[|text]|] eqn:Hf.
  - rewrite load_directory by done. exists (settings s). by destruct s.
  - destruct (Json.loads text) as [d|] eqn:Hd.
    + rewrite (load_file s text d Hf Hd). by exists d.
    + rewrite (load_bad_document s text Hf Hd).
      exists (settings s). by destruct s.
  - rewrite load_absent by done. by eexists.
Qed.

(** X14: the main window opens on the stored settings or the defaults.
    With no settings file the constructor returns with the default
    settings, nothing retained and the button reading [Start].  With a
    settings file that holds one object of string and boolean members it
    returns with the members of the document alone as settings, none of
    the defaults filled in.  With a directory at the settings path the
    error of [open] leaves it.  In the two cases where it returns, if
    every process of the table has been asked to terminate, the window
    is tidy. *)
Theorem main_window_opens w :
  (fs (app w) !! SETTINGS_FILE = None →
   __init__ w
   = (Returned,
      Window (set_settings SettingsManager.defaults (set_p None (app w)))
        "Start" (critical w))) ∧
  (∀ text d, fs (app w) !! SETTINGS_FILE = Some (File text) →
     Json.loads text = Some d →
     __init__ w
     = (Returned,
        Window (set_settings d (set_p None (app w))) "Start" (critical w))) ∧
  (fs (app w) !! SETTINGS_FILE = Some Dir →
   (__init__ w).1 = Raised (OSError SETTINGS_FILE)) ∧
  ((∀ i c, procs (app w) !! i = Some c → terminated c = true) →
   (fs (app w) !! SETTINGS_FILE = None ∨
    ∃ text d, fs (app w) !! SETTINGS_FILE = Some (File text) ∧
              Json.loads text = Some d) →
   (__init__ w).1 = Returned ∧ tidy (__init__ w).2).
Proof.
  unfold __init__.
  assert ((Xqemu.__init__;; SettingsManager.__init__;; SettingsManager.load)
            (app w)
          = SettingsManager.load
              (set_settings SettingsManager.defaults (set_p None (app w))))
    as -> by done.
  set (s0 := set_settings SettingsManager.defaults (set_p None (app w))).
  split_and!.
  - intros Hf. by rewrite (load_absent s0 Hf).
  - intros text d Hf Hd. by rewrite (load_file s0 text d Hf Hd).
  - intros Hf. by rewrite (load_directory s0 Hf).
  - intros Hall [Hf|(text & d & Hf & Hd)].
    + rewrite (load_absent s0 Hf). split; [done|].
      split_and!; simpl; try done. intros i c Hi _. by eapply Hall.
    + rewrite (load_file s0 text d Hf Hd). split; [done|].
      split_and!; simpl; try done. intros i c Hi _. by eapply Hall.
Qed.

Lemma main_window_opens_witness :
  __init__ saved_window
  = (Returned,
     Window (set_settings demo_settings (set_p None (app saved_window)))
       "Start" []).
Proof.
  assert (fs (app saved_window) !! SETTINGS_FILE
          = Some (File (Json.dumps demo_settings))) as Hf
    by (vm_compute; reflexivity).
  assert (Json.loads (Json.dumps demo_settings) = Some demo_settings) as Hd
    by (vm_compute; reflexivity).
  destruct (main_window_opens saved_window) as (_ & H & _).
  exact (H _ _ Hf Hd).
Defined.

End main_window.

(** * The settings document *)

Section json_round_trip.
Import Json.

Lemma scanstring_escape c x :
  scanstring (escape c +:+ x)
  = '(t, rest) ← scanstring x; Some (String c t, rest).
Proof.
  destruct c as [[] [] [] [] [] [] [] []]; reflexivity.
Qed.

(** A string literal reads back as the string it was written from. *)
Lemma scanstring_escape_all s rest :
  scanstring (escape_all s +:+ String quote rest) = Some (s, rest).
Proof.
  induction s as [|c s IH].
  - reflexivity.
  - change (escape_all (String c s)) with (escape c +:+ escape_all s).
    rewrite string_app_assoc, scanstring_escape, IH. reflexivity.
Qed.

Lemma encode_string_app s x :
  encode_string s +:+ x = String quote (escape_all s +:+ String quote x).
Proof.
  unfold encode_string.
  change (String quote (escape_all s +:+ String quote "") +:+ x)
    with (String quote ((escape_all s +:+ String quote "") +:+ x)).
  by rewrite string_app_assoc.
Qed.

Lemma scan_value_encode v x :
  scan_value (encode_value v +:+ x) = Some (v, x).
Proof.
  destruct v as [s|[]].
  - simpl encode_value. rewrite encode_string_app.
    unfold scan_value. change (quote =? quote)%char with true.
    cbn beta iota. by rewrite scanstring_escape_all.
  - pose proof (prefix_app "true" x) as H.
    change ("true" +:+ x)
      with (String "t" (String "r" (String "u" (String "e" x)))) in H.
    change (encode_value (VBool true) +:+ x)
      with (String "t" (String "r" (String "u" (String "e" x)))).
    unfold scan_value. change ("t" =? quote)%char with false.
    cbn beta iota. by rewrite H.
  - pose proof (prefix_app "false" x) as H.
    change ("false" +:+ x)
      with (String "f" (String "a" (String "l" (String "s" (String "e" x)))))
      in H.
    change (encode_value (VBool false) +:+ x)
      with (String "f" (String "a" (String "l" (String "s" (String "e" x))))).
    unfold scan_value. change ("f" =? quote)%char with false.
    cbn beta iota.
    change (String.prefix "true"
              (String "f" (String "a" (String "l" (String "s" (String "e" x))))))
      with false.
    cbn beta iota. by rewrite H.
Qed.

Lemma skip_ws_encode_value v x :
  skip_ws (encode_value v +:+ x) = encode_value v +:+ x.
Proof.
  destruct v as [s|[]]; [|reflexivity..].
  simpl encode_value. rewrite encode_string_app. reflexivity.
Qed.

Lemma skip_ws_encode_item kv x :
  skip_ws (encode_item kv +:+ x) = encode_item kv +:+ x.
Proof.
  unfold encode_item. rewrite string_app_assoc, encode_string_app.
  reflexivity.
Qed.

(** One member of the document, followed by [x]. *)
Lemma members_item fuel acc k v x :
  members (S fuel) acc (encode_item (k, v) +:+ x)
  = match skip_ws x with
    | String "}" s5 => Some (<[k:=v]> acc, s5)
    | String "," s5 => members fuel (<[k:=v]> acc) (skip_ws s5)
    | _ => None
    end.
Proof.
  unfold encode_item. cbn [fst snd].
  rewrite string_app_assoc, encode_string_app.
  cbn [members]. change (quote =? quote)%char with true. cbn beta iota.
  rewrite scanstring_escape_all. cbn [mbind option_bind].
  rewrite string_app_assoc.
  change (skip_ws (": " +:+ encode_value v +:+ x))
    with (String ":" (String " " (encode_value v +:+ x))).
  cbn beta iota.
  change (skip_ws (String " " (encode_value v +:+ x)))
    with (skip_ws (encode_value v +:+ x)).
  rewrite skip_ws_encode_value, scan_value_encode. reflexivity.
Qed.


Lemma concat_app_cons sep x y l t :
  String.concat sep (x :: y :: l) +:+ t
  = x +:+ sep +:+ String.concat sep (y :: l) +:+ t.
Proof.
  change (String.concat sep (x :: y :: l))
    with (x +:+ sep +:+ String.concat sep (y :: l)).
  by rewrite !string_app_assoc.
Qed.

Lemma skip_ws_items kv items t :
  skip_ws (String.concat ("," +:+ newline +:+ "  ")
             (encode_item <$> kv :: items) +:+ t)
  = String.concat ("," +:+ newline +:+ "  ") (encode_item <$> kv :: items)
    +:+ t.
Proof.
  destruct items as [|kv' items].
  - apply skip_ws_encode_item.
  - rewrite !fmap_cons, concat_app_cons. apply skip_ws_encode_item.
Qed.

(** The members of a document read back one by one, in order. *)
Lemma members_items items kv acc fuel rest :
  length (kv :: items) ≤ fuel →
  members fuel acc
    (String.concat ("," +:+ newline +:+ "  ") (encode_item <$> kv :: items)
     +:+ newline +:+ "}" +:+ rest)
  = Some (foldl put acc (kv :: items), rest).
Proof.
  revert kv acc fuel.
  induction items as [|kv' items IH]; intros [k v] acc fuel Hfuel;
    (destruct fuel as [|fuel]; [simpl in Hfuel; lia|]).
  - change (String.concat ("," +:+ newline +:+ "  ") (encode_item <$> [(k, v)]))
      with (encode_item (k, v)).
    rewrite members_item. reflexivity.
  - rewrite !fmap_cons, concat_app_cons, members_item.
    change (skip_ws (("," +:+ newline +:+ "  ")
              +:+ String.concat ("," +:+ newline +:+ "  ")
                    (encode_item kv' :: (encode_item <$> items))
              +:+ newline +:+ "}" +:+ rest))
      with (String ","
              (String "010" (String " " (String " "
                (String.concat ("," +:+ newline +:+ "  ")
                    (encode_item kv' :: (encode_item <$> items))
                 +:+ newline +:+ "}" +:+ rest))))).
    cbn beta iota.
    change (skip_ws (String "010" (String " " (String " " ?x))))
      with (skip_ws x).
    rewrite <- fmap_cons, skip_ws_items.
    rewrite IH by (simpl in *; lia). reflexivity.
Qed.


Lemma length_app (a b : string) :
  String.length (a +:+ b) = String.length a + String.length b.
Proof.
  induction a as [|c a IH]; [done|].
  change (String c a +:+ b) with (String c (a +:+ b)). simpl. by rewrite IH.
Qed.

Lemma encode_item_starts kv t : ∃ x, encode_item kv +:+ t = String quote x.
Proof.
  unfold encode_item. rewrite string_app_assoc, encode_string_app.
  by eexists.
Qed.

Lemma items_start kv items t :
  ∃ x, String.concat ("," +:+ newline +:+ "  ") (encode_item <$> kv :: items)
       +:+ t = String quote x.
Proof.
  destruct items as [|kv' items].
  - apply encode_item_starts.
  - rewrite !fmap_cons, concat_app_cons. apply encode_item_starts.
Qed.

(** There are at least as many characters as members. *)
Lemma length_items kv items t :
  length (kv :: items)
  ≤ String.length
      (String.concat ("," +:+ newline +:+ "  ") (encode_item <$> kv :: items)
       +:+ t).
Proof.
  revert kv. induction items as [|kv' items IH]; intros kv.
  - destruct (items_start kv [] t) as [x ->]. simpl. lia.
  - rewrite !fmap_cons, concat_app_cons.
    destruct (encode_item_starts kv "") as [x Hx].
    rewrite (length_app (encode_item kv)).
    rewrite (length_app ("," +:+ newline +:+ "  ")).
    specialize (IH kv'). rewrite fmap_cons in IH.
    assert (1 ≤ String.length (encode_item kv)).
    { assert (encode_item kv = String quote x) as ->.
      { rewrite <- Hx. clear. induction (encode_item kv) as [|c s IH]; [done|].
        change (String c s +:+ "") with (String c (s +:+ "")). by rewrite <- IH. }
      simpl. lia. }
    simpl in *. lia.
Qed.

(** Reading the members in order gives the dictionary they came from. *)
Lemma foldl_put l acc :
  NoDup l.*1 → foldl put acc l = list_to_map l ∪ acc.
Proof.
  revert acc. induction l as [|[k v] l IH]; intros acc Hnd; simpl.
  - by rewrite (left_id_L ∅ (∪)).
  - apply NoDup_cons in Hnd as [Hk Hnd].
    rewrite IH by done. unfold put; simpl.
    rewrite <- insert_union_r; [|by apply not_elem_of_list_to_map_1].
    by rewrite insert_union_l.
Qed.

Lemma loads_object t d :
  (∃ x, t = String quote x) →
  members (String.length t) ∅ t = Some (d, "") →
  loads ("{" +:+ newline +:+ "  " +:+ t) = Some d.
Proof.
  intros [x ->] H. unfold loads.
  change (skip_ws ("{" +:+ newline +:+ "  " +:+ String quote x))
    with (String "{" (String "010" (String " " (String " " (String quote x))))).
  cbn beta iota.
  change (skip_ws (String "010" (String " " (String " " (String quote x)))))
    with (String quote x).
  cbn beta iota. unfold quote at 1. cbn beta iota. fold quote.
  rewrite H. reflexivity.
Qed.

(** Every dictionary of strings and booleans reads back from the
    document written for it. *)
Lemma loads_dumps d : loads (dumps d) = Some d.
Proof.
  unfold dumps. destruct (map_to_list d) as [|kv items] eqn:Hl.
  - apply map_to_list_empty_iff in Hl as ->. reflexivity.
  - change (loads ("{" +:+ newline +:+ "  "
            +:+ (String.concat ("," +:+ newline +:+ "  ")
                   (encode_item <$> kv :: items) +:+ newline +:+ "}" +:+ ""))
            = Some d).
    apply loads_object; [apply items_start|].
    rewrite members_items by apply length_items.
    rewrite foldl_put by (rewrite <- Hl; apply NoDup_fst_map_to_list).
    rewrite <- Hl, list_to_map_to_list. by rewrite (right_id_L ∅ (∪)).
Qed.


(** X15: what [save] writes, [load] reads back.  Whatever the settings
    hold (quotes, backslashes and control characters in the texts
    included), the document written for them is accepted by
    [json.loads] and gives them back, so [save] followed by [load]
    returns with the settings as they were and the settings file
    holding their document. *)
Theorem save_then_load s :
  fs s !! SETTINGS_FILE ≠ Some Dir →
  Json.loads (Json.dumps (settings s)) = Some (settings s) ∧
  (SettingsManager.save;; SettingsManager.load) s
  = (Ok (),
     set_fs (<[SETTINGS_FILE := File (Json.dumps (settings s))]> (fs s)) s).
Proof.
  intros Hdir. split; [apply loads_dumps|].
  unfold mbind at 1. unfold M_bind at 1.
  rewrite save_ok by done.
  rewrite (load_file _ (Json.dumps (settings s)) (settings s)).
  - by destruct s.
  - cbn [fs set_fs]. apply lookup_insert_eq.
  - apply loads_dumps.
Qed.

Lemma save_then_load_witness :
  settings ((SettingsManager.save;; SettingsManager.load)
              (set_settings spaced_settings demo_state)).2
  = spaced_settings.
Proof.
  destruct (save_then_load (set_settings spaced_settings demo_state))
    as [_ H].
  - discriminate.
  - by rewrite H.
Defined.

(** X16: [save] writes the document of the settings over whatever file
    was at the settings path and changes nothing else, so saving twice
    is saving once; with a directory at the settings path it raises and
    changes nothing. *)
Theorem save_effect s :
  (fs s !! SETTINGS_FILE = Some Dir →
   SettingsManager.save s = (Raise (OSError SETTINGS_FILE), s)) ∧
  (fs s !! SETTINGS_FILE ≠ Some Dir →
   (SettingsManager.save s).1 = Ok () ∧
   fs (SettingsManager.save s).2 !! SETTINGS_FILE
     = Some (File (Json.dumps (settings s))) ∧
   (∀ p, p ≠ SETTINGS_FILE →
         fs (SettingsManager.save s).2 !! p = fs s !! p) ∧
   settings (SettingsManager.save s).2 = settings s ∧
   (SettingsManager.save;; SettingsManager.save) s = SettingsManager.save s).
Proof.
  split; [apply save_refused|]. intros Hdir.
  unfold mbind, M_bind. rewrite save_ok by done. cbn [fst snd].
  split_and!; try done.
  - apply lookup_insert_eq.
  - intros p Hp. by apply lookup_insert_ne.
  - rewrite save_ok.
    + cbn [fs set_fs settings]. rewrite insert_insert_eq. by destruct s.
    + cbn [fs set_fs]. by rewrite lookup_insert_eq.
Qed.

End json_round_trip.

(** * From the dialog to the next start *)

Section persistence.
Import SettingsWindow MainWindow.

Lemma exec_mirrors events f s :
  mirrors f (settings s) →
  ∃ f' d', exec_ events f s = (Ok f', set_settings d' s) ∧ mirrors f' d'.
Proof.
  revert f s. induction events as [|e events IH]; intros f s Hm.
  - exists f, (settings s). split; [by destruct s|done].
  - destruct (handle_mirrors e f s Hm) as (f1 & d1 & He & Hm1 & _).
    destruct (IH f1 (set_settings d1 s) Hm1) as (f2 & d2 & Hx & Hm2).
    exists f2, d2. split; [|done].
    simpl. rewrite (bind_ok _ _ _ _ _ He). by rewrite Hx.
Qed.

Lemma init_reads_file w text d :
  fs (app w) !! SETTINGS_FILE = Some (File text) →
  Json.loads text = Some d →
  __init__ w
  = (Returned,
     Window (set_settings d (set_p None (app w))) "Start" (critical w)).
Proof.
  intros Hf Hd. unfold __init__.
  assert ((Xqemu.__init__;; SettingsManager.__init__;; SettingsManager.load)
            (app w)
          = SettingsManager.load
              (set_settings SettingsManager.defaults (set_p None (app w))))
    as -> by done.
  by rewrite (load_file
                (set_settings SettingsManager.defaults (set_p None (app w)))
                text d Hf Hd).
Qed.

(** X17: a visit to the settings dialog is kept.  On well-typed settings
    and with a settings path that can be written, the handler returns,
    the settings it leaves are well typed and the settings file holds
    their document; a main window opened later on that filesystem starts
    with exactly these settings. *)
Theorem settings_visit_persists ui events w :
  well_typed (settings (app w)) →
  fs (app w) !! SETTINGS_FILE ≠ Some Dir →
  (onSettingsClicked ui events w).1 = Returned ∧
  well_typed (settings (app (onSettingsClicked ui events w).2)) ∧
  fs (app (onSettingsClicked ui events w).2) !! SETTINGS_FILE
    = Some (File (Json.dumps
                    (settings (app (onSettingsClicked ui events w).2)))) ∧
  (∀ w', fs (app w') = fs (app (onSettingsClicked ui events w).2) →
         (__init__ w').1 = Returned ∧
         settings (app (__init__ w').2)
           = settings (app (onSettingsClicked ui events w).2)).
Proof.
  intros Hwt Hdir.
  destruct (init_well_typed ui (app w) Hwt) as (f & Hi & Hm).
  destruct (exec_mirrors events f (app w) Hm) as (f' & d' & Hx & Hm').
  assert (onSettingsClicked ui events w
          = (Returned,
             Window (set_fs (<[SETTINGS_FILE := File (Json.dumps d')]>
                               (fs (app w)))
                       (set_settings d' (app w)))
               (runButton w) (critical w))) as ->.
  { unfold onSettingsClicked. rewrite (bind_ok _ _ _ _ _ Hi).
    unfold mbind, M_bind. rewrite Hx. by rewrite save_ok. }
  cbn [fst snd app settings fs set_fs set_settings].
  split_and!.
  - done.
  - by eapply mirrors_well_typed.
  - apply lookup_insert_eq.
  - intros w' Hfs.
    rewrite (init_reads_file w' (Json.dumps d') d').
    + done.
    + rewrite Hfs. apply lookup_insert_eq.
    + apply loads_dumps.
Qed.

Lemma settings_visit_persists_witness :
  (onSettingsClicked blank_form
     [Typed hddPath "/img/my disk.img"; Clicked dvdPresent]
     demo_window).1 = Returned.
Proof.
  apply (settings_visit_persists blank_form _ demo_window).
  - split; intros k Hk; apply list_elem_of_In in Hk; cbn in Hk.
    + destruct Hk as [<-|[<-|[<-|[<-|[<-|[]]]]]]; by eexists.
    + destruct Hk as [<-|[<-|[<-|[]]]]; by eexists.
  - discriminate.
Defined.

End persistence.
